(** * pynsc: request builder and return-file converter

    A shallow embedding of
      - [studentclearinghouse/nsc_request.py] (class [NSCRequest]) and its
        older sibling [pynsc/nsc_request.py], and
      - [studentclearinghouse/nsc_return_se_convert.py],
    together with the properties of these programs.

    Python text is a list of Unicode code points, a pandas cell is a tagged
    value, a Series is a list of cells, and a raised exception is an explicit
    [Raise] result.  The pandas operations the source calls are written out
    as list functions next to the call they stand for. *)

From Stdlib Require Import List ZArith NArith Bool Arith Lia String Ascii.
From Stdlib Require Import Permutation DecimalString.
Import ListNotations.

Set Implicit Arguments.

(* ===================================================================== *)
(** ** Python values                                                      *)
(* ===================================================================== *)

Module Py.

(** A Python [str]: the sequence of its code points. *)
Definition pystr := list N.

(** A source literal such as ['D1'] (ASCII in every literal of the source). *)
Definition lit (s : string) : pystr :=
  map N_of_ascii (list_ascii_of_string s).

Definition pystr_eqb (a b : pystr) : bool :=
  if list_eq_dec N.eq_dec a b then true else false.

(** The exceptions the modelled code can raise. *)
Inductive exn :=
| ValueError (msg : string)
| AttributeError (msg : string)
| NameError (msg : string).

Inductive result (A : Type) :=
| Ok (a : A)
| Raise (e : exn).
Arguments Ok {A} a.
Arguments Raise {A} e.

Definition bind {A B} (m : result A) (k : A -> result B) : result B :=
  match m with
  | Ok a => k a
  | Raise e => Raise e
  end.


Definition is_Ok {A} (m : result A) : bool :=
  match m with
  | Ok _ => true
  | Raise _ => false
  end.

(** [str.isspace] on one code point: the characters CPython's
    [_PyUnicode_IsWhitespace] accepts. *)
Definition isspace (c : N) : bool :=
  (((9 <=? c) && (c <=? 13)) || ((28 <=? c) && (c <=? 32))
   || (c =? 133) || (c =? 160) || (c =? 5760)
   || ((8192 <=? c) && (c <=? 8202))
   || (c =? 8232) || (c =? 8233) || (c =? 8239) || (c =? 8287)
   || (c =? 12288))%N.

(** [s.lstrip()], [s.rstrip()], [s.strip()]. *)
Fixpoint lstrip (s : pystr) : pystr :=
  match s with
  | [] => []
  | c :: t => if isspace c then lstrip t else s
  end.

Definition rstrip (s : pystr) : pystr := rev (lstrip (rev s)).

Definition strip (s : pystr) : pystr := rstrip (lstrip s).

(** Whether [s] begins with a whitespace character, and whether it neither
    begins nor ends with one. *)
Definition starts_with_space (s : pystr) : bool :=
  match s with
  | c :: _ => isspace c
  | [] => false
  end.

Definition trimmed (s : pystr) : bool :=
  negb (starts_with_space s) && negb (starts_with_space (rev s)).

(** [s[:n]] for a literal [n >= 0]. *)
Definition slice_to (n : nat) (s : pystr) : pystr := firstn n s.

(** [s[a:b]] for literals [0 <= a <= b]. *)
Definition slice (a b : nat) (s : pystr) : pystr := firstn (b - a) (skipn a s).

(** A code point of the 7-bit ASCII range. *)
Definition is_ascii (c : N) : bool := (c <? 128)%N.

(** [s.encode('ascii', 'ignore')]: the bytes of the ASCII characters of [s];
    every other character is left out. *)
Definition encode_ascii_ignore (s : pystr) : list N := filter is_ascii s.

(** [b.decode('ascii')]: strict decoding, [UnicodeDecodeError] (a
    [ValueError]) on a byte above 127. *)
Definition decode_ascii (b : list N) : result pystr :=
  if forallb is_ascii b then Ok b
  else Raise (ValueError "UnicodeDecodeError").

(** [s.replace(old, '')] for a one-character [old]. *)
Definition remove_char (c : N) (s : pystr) : pystr :=
  filter (fun x => negb (x =? c)%N) s.

(** [str(n)] / [f'{n}'] for a non-negative [int]. *)
Definition str_of_nat (n : nat) : pystr :=
  lit (NilZero.string_of_uint (Nat.to_uint n)).

(** [search.contains('-')]: [str] has no attribute [contains] (the substring
    test of Python is the [in] operator), so the attribute lookup raises
    before anything is called. *)
Definition str_contains (s sub : pystr) : result bool :=
  Raise (AttributeError "'str' object has no attribute 'contains'").

End Py.

Import Py.

Declare Scope py_scope.
Delimit Scope py_scope with py.
Notation "x <- m ;; k" := (bind m (fun x => k))
  (at level 61, m at next level, right associativity) : py_scope.
Notation "s1 +++ s2" := (@app N s1 s2)
  (at level 60, right associativity) : py_scope.
Local Open Scope string_scope.
Local Open Scope nat_scope.
Local Open Scope py_scope.

(* ===================================================================== *)
(** ** The request builder: [nsc_request.py]                              *)
(* ===================================================================== *)

Module Request.

(** One cell of a DataFrame column of dtype [object]. *)
Inductive value :=
| NaN                       (* None, NaN, NaT *)
| Str (s : pystr)           (* str *)
| Bytes (b : list N)        (* bytes *)
| Date (y m d : nat).       (* datetime.date, datetime.datetime, datetime64 *)

Definition Series := list value.

(** A DataFrame with the default [RangeIndex]: the number of index labels
    and the columns in order.  Every column has [nrows] cells. *)
Record DataFrame := mkDataFrame {
  nrows : nat;
  columns : list (string * Series)
}.

Definition wf_frame (df : DataFrame) : Prop :=
  Forall (fun c => List.length (snd c) = nrows df) (columns df).

(** [df.empty]: an axis of length zero. *)
Definition empty (df : DataFrame) : bool :=
  (nrows df =? 0) || (List.length (columns df) =? 0).

(** [item in df.columns]. *)
Definition has_column (c : string) (df : DataFrame) : bool :=
  existsb (fun p => String.eqb (fst p) c) (columns df).

Fixpoint lookup (c : string) (cols : list (string * Series)) : option Series :=
  match cols with
  | [] => None
  | (k, s) :: rest => if String.eqb k c then Some s else lookup c rest
  end.

(** [df.loc[:, c]] and [df[c]], for a column the caller has checked. *)
Definition col (c : string) (df : DataFrame) : Series :=
  match lookup c (columns df) with
  | Some s => s
  | None => []
  end.

(** [r.loc[:, c] = s]: replaces the column or appends a new one. *)
Fixpoint setcol (c : string) (s : Series) (cols : list (string * Series))
  : list (string * Series) :=
  match cols with
  | [] => [(c, s)]
  | (k, old) :: rest =>
      if String.eqb k c then (k, s) :: rest else (k, old) :: setcol c s rest
  end.

Definition isna (v : value) : bool :=
  match v with NaN => true | _ => false end.

Definition notna (v : value) : bool := negb (isna v).

Definition is_date (v : value) : bool :=
  match v with Date _ _ _ => true | _ => false end.

(** The [.str] accessor of a Series: pandas refuses it
    ("Can only use .str accessor with string values") when the inferred type
    of the non-null cells is a date type, that is, when there is a non-null
    cell and every non-null cell is date-typed.  Text, bytes, a mix, or no
    non-null cell at all are accepted. *)
Definition str_accessor_ok (s : Series) : bool :=
  match filter notna s with
  | [] => true
  | nn => negb (forallb is_date nn)
  end.

Definition dot_str (s : Series) : result Series :=
  if str_accessor_ok s then Ok s
  else Raise (AttributeError "Can only use .str accessor with string values").

(** The element-wise string methods.  pandas maps each over the non-null
    cells and yields NaN where the Python method raises [TypeError] or
    [AttributeError] (a cell of another type). *)

(** [.str[:n]] *)
Definition str_slice_to (n : nat) (v : value) : value :=
  match v with
  | Str s => Str (slice_to n s)
  | Bytes b => Bytes (firstn n b)
  | _ => NaN
  end.

(** ASCII whitespace, as [bytes.strip()] removes it. *)
Definition is_bspace (c : N) : bool :=
  (((9 <=? c) && (c <=? 13)) || (c =? 32))%N.

Fixpoint blstrip (b : list N) : list N :=
  match b with
  | [] => []
  | c :: t => if is_bspace c then blstrip t else b
  end.

(** [.str.strip()] *)
Definition str_strip (v : value) : value :=
  match v with
  | Str s => Str (strip s)
  | Bytes b => Bytes (rev (blstrip (rev (blstrip b))))
  | _ => NaN
  end.

(** [.str.encode('ascii','ignore')]: only [str] has [encode]. *)
Definition str_encode (v : value) : value :=
  match v with
  | Str s => Bytes (encode_ascii_ignore s)
  | _ => NaN
  end.

(** [.str.decode('ascii')]: a [UnicodeDecodeError] is not among the
    exceptions pandas turns into NaN, it propagates. *)
Definition str_decode (v : value) : result value :=
  match v with
  | Bytes b => s <- decode_ascii b ;; Ok (Str s)
  | _ => Ok NaN
  end.

Fixpoint mapM {A B} (f : A -> result B) (l : list A) : result (list B) :=
  match l with
  | [] => Ok []
  | a :: t => b <- f a ;; bs <- mapM f t ;; Ok (b :: bs)
  end.

(** The chain
    [.str[:n].str.strip().str.encode('ascii','ignore').str.decode('ascii')]
    on one cell: the normalization of FirstName, LastName (n = 20),
    MiddleInitial (n = 1) and Suffix (n = 5). *)
Definition truncate_trim_ascii (n : nat) (v : value) : result value :=
  str_decode (str_encode (str_strip (str_slice_to n v))).

(** The same chain on a whole column, with the accessor looked up before
    every method as the source does. *)
Definition name_field (n : nat) (c : Series) : result Series :=
  a <- dot_str c ;;
  b <- dot_str (map (str_slice_to n) a) ;;
  e <- dot_str (map str_strip b) ;;
  d <- dot_str (map str_encode e) ;;
  mapM str_decode d.

(** [.str[:50].str.strip()] of ReturnRequestField: no ASCII filter. *)
Definition return_field (c : Series) : result Series :=
  a <- dot_str c ;;
  b <- dot_str (map (str_slice_to 50) a) ;;
  Ok (map str_strip b).

(** The normalization as the specification words it: trim, then truncate,
    then drop the non-ASCII characters; the empty string for a null. *)
Definition truncate_trim_ascii_spec (n : nat) (v : value) : value :=
  match v with
  | Str s => Str (filter is_ascii (slice_to n (strip s)))
  | _ => Str []
  end.

(** [str(k).zfill(w)], the zero padding of [strftime]. *)
Definition zfill (w : nat) (s : pystr) : pystr :=
  repeat 48%N (w - List.length s) +++ s.

(** [x.strftime('%Y%m%d')] of a date. *)
Definition strftime_Ymd (y m d : nat) : pystr :=
  zfill 4 (str_of_nat y) +++ zfill 2 (str_of_nat m) +++ zfill 2 (str_of_nat d).

(** The local function [cvtdate].  Its handler evaluates [np.nan], but the
    module imports only [datetime64] from numpy and binds no name [np]: for
    a cell without [strftime] the handler itself raises [NameError]. *)
Definition cvtdate (x : value) : result value :=
  match x with
  | Date y m d => Ok (Str (strftime_Ymd y m d))
  | _ => Raise (NameError "name 'np' is not defined")
  end.

(** [lambda x: x.strftime("%Y%m%d")] of the older module. *)
Definition strftime_lambda (x : value) : result value :=
  match x with
  | Date y m d => Ok (Str (strftime_Ymd y m d))
  | _ => Raise (AttributeError "object has no attribute 'strftime'")
  end.

(** [isinstance(df[c].values[0], datetime.date) or ... datetime.datetime
    or ... numpy_datetime64]: the first cell decides for the column. *)
Definition first_is_date (s : Series) : bool :=
  match s with
  | v :: _ => is_date v
  | [] => false
  end.

(** The attributes of an [NSCRequest] object that [create_request] reads
    and writes.  [r], [h] and [t] do not exist before the first successful
    build. *)
Record NSCRequest := mkNSCRequest {
  fice : pystr;
  branch : pystr;
  name : pystr;
  inquiryType : pystr;
  search : pystr;
  enrolledStudents : option bool;
  r : option (list (list value));
  h : option pystr;
  t : option pystr
}.

Definition out_columns : list string :=
  ["RecordType"; "SSN"; "FirstName"; "MiddleInitial"; "LastName"; "Suffix";
   "DOB"; "SearchBeginDate"; "Blank"; "SchoolCode"; "BranchCode";
   "ReturnRequestField"].

(** [r.loc[:, c] = scalar]: the scalar in every row. *)
Definition broadcast (n : nat) (v : value) : Series := repeat v n.

(** Row [i] of a frame, restricted to the columns [cs] in that order. *)
Definition row_at (cols : list (string * Series)) (cs : list string) (i : nat)
  : list value :=
  map (fun c => match lookup c cols with
                | Some s => nth i s NaN
                | None => NaN
                end) cs.

(** [r.loc[mask, cs]] *)
Definition loc_rows (n : nat) (cols : list (string * Series))
  (mask : list bool) (cs : list string) : list (list value) :=
  map (row_at cols cs)
      (filter (fun i => nth i mask false) (seq 0 n)).

Definition tab : pystr := [9%N].
Definition nl : pystr := [10%N].

(** [self.h]: the header line. *)
Definition header (self : NSCRequest) (now : pystr) : pystr :=
  lit "H1" +++ tab +++ fice self +++ tab +++ branch self +++ tab
  +++ strip (slice_to 40 (name self)) +++ tab +++ now +++ tab
  +++ inquiryType self +++ tab +++ lit "I" +++ nl.

(** [self.t] of a count. *)
Definition trailer (count : nat) : pystr :=
  lit "T1" +++ tab +++ str_of_nat count +++ nl.

Definition required_columns : list string :=
  ["FirstName"; "MiddleInitial"; "LastName"; "Suffix"; "DOB"].

(** [self.inquiryType == 'PA' and self.enrolledStudents == False and
    'SSN' in df.columns] *)
Definition ssn_allowed (self : NSCRequest) (df : DataFrame) : bool :=
  pystr_eqb (inquiryType self) (lit "PA")
  && match enrolledStudents self with Some false => true | _ => false end
  && has_column "SSN" df.

Section Builder.

(** [pd.to_datetime(column, format="%Y%m%d")] is pandas code: whether it
    returns ([true]) or raises ([false]) on a column is a parameter of the
    model. *)
Variable to_datetime_Ymd : Series -> bool.

(** Lines 180-197 of [studentclearinghouse/nsc_request.py] (172-190 of the
    older module): SSN and the four name columns of [r]. *)
Definition name_columns (self : NSCRequest) (df : DataFrame)
  (r0 : list (string * Series)) : result (list (string * Series)) :=
  let n := nrows df in
  let r1 := setcol "SSN"
              (if ssn_allowed self df then col "SSN" df
               else broadcast n (Str [])) r0 in
  fn <- name_field 20 (col "FirstName" df) ;;
  let r2 := setcol "FirstName" fn r1 in
  mi <- (if has_column "MiddleInitial" df
         then name_field 1 (col "MiddleInitial" df)
         else Ok (broadcast n (Str []))) ;;
  let r3 := setcol "MiddleInitial" mi r2 in
  ln <- name_field 20 (col "LastName" df) ;;
  let r4 := setcol "LastName" ln r3 in
  sf <- (if has_column "Suffix" df
         then name_field 5 (col "Suffix" df)
         else Ok (broadcast n (Str []))) ;;
  Ok (setcol "Suffix" sf r4).

(** Lines 231-240 (224-233 of the older module): the constant columns and
    ReturnRequestField. *)
Definition tail_columns (self : NSCRequest) (df : DataFrame)
  (r0 : list (string * Series)) : result (list (string * Series)) :=
  let n := nrows df in
  let r1 := setcol "RecordType" (broadcast n (Str (lit "D1"))) r0 in
  let r2 := setcol "Blank" (broadcast n (Str [])) r1 in
  let r3 := setcol "SchoolCode" (broadcast n (Str (fice self))) r2 in
  let r4 := setcol "BranchCode" (broadcast n (Str (branch self))) r3 in
  rr <- (if has_column "ReturnRequestField" df
         then return_field (col "ReturnRequestField" df)
         else Ok (broadcast n (Str []))) ;;
  Ok (setcol "ReturnRequestField" rr r4).

(** [NSCRequest.create_request] of [studentclearinghouse/nsc_request.py].
    [now] is [datetime.datetime.now().strftime('%Y%m%d')].  The [print]
    advisories are left out; they change no value. *)
Definition create_request (self : NSCRequest) (now : pystr) (df : DataFrame)
  : result NSCRequest :=
  if empty df then Raise (ValueError "Dataframe is empty")
  else if existsb (fun item => negb (has_column item df)) required_columns
  then Raise (ValueError "ERROR: Missing one of the required columns")
  else
    let n := nrows df in
    (* r = pd.DataFrame(index=df.index) *)
    r1 <- name_columns self df [] ;;
    dob <- (if first_is_date (col "DOB" df)
            then mapM cvtdate (col "DOB" df)
            else if to_datetime_Ymd (col "DOB" df)
                 then Ok (col "DOB" df)
                 else Raise (ValueError
                   "ERROR: DOB does not contain dates as strings in the format YYYYMMDD")) ;;
    let r2 := setcol "DOB" dob r1 in
    sb <- (if negb (has_column "SearchBeginDate" df)
           then Ok (broadcast n (Str (search self)))
           else if first_is_date (col "SearchBeginDate" df)
                then mapM cvtdate (col "SearchBeginDate" df)
                else Ok (col "SearchBeginDate" df)) ;;
    let r3 := setcol "SearchBeginDate" sb r2 in
    r4 <- tail_columns self df r3 ;;
    Ok {| fice := fice self; branch := branch self; name := name self;
          inquiryType := inquiryType self; search := search self;
          enrolledStudents := enrolledStudents self;
          r := Some (loc_rows n r4 (map notna (col "FirstName" (mkDataFrame n r4)))
                              out_columns);
          h := Some (header self now);
          t := Some (trailer (n + 2)) |}.

End Builder.



(** The [search] branch of [NSCRequest.__init__]
    ([studentclearinghouse/nsc_request.py], lines 127-142).  [now] is
    today's date as [%Y%m%d]. *)
Definition expand_partial_search_date (now : pystr) (search : pystr)
  : result pystr :=
  if pystr_eqb search [] then Ok now
  else if List.length search =? 4 then Ok (search +++ lit "0101")
  else if List.length search =? 6 then Ok (search +++ lit "01")
  else
    c7 <- (if List.length search =? 7 then str_contains search (lit "-")
           else Ok false) ;;
    if (c7 : bool)
    then Ok (slice_to 4 search +++ slice 5 6 search +++ lit "01")
    else
      c10 <- (if List.length search =? 10 then str_contains search (lit "-")
              else Ok false) ;;
      if (c10 : bool) then Ok (remove_char 45%N search) else Ok search.

(** What the specification says of the same function. *)
Definition expand_partial_search_date_spec (search : pystr) : pystr :=
  if List.length search =? 4 then search +++ lit "0101"
  else if List.length search =? 6 then search +++ lit "01"
  else if List.length search =? 7 then remove_char 45%N search +++ lit "01"
  else if List.length search =? 10 then remove_char 45%N search
  else search.

(** *** Closed forms and the inputs of the examples *)

Definition is_str (v : value) : bool :=
  match v with Str _ => true | _ => false end.

Definition accessor_error : exn :=
  AttributeError "Can only use .str accessor with string values".

(** What [cvtdate] leaves in a cell it converts. *)
Definition fmt_date (v : value) : value :=
  match v with
  | Date y m d => Str (strftime_Ymd y m d)
  | _ => NaN
  end.

(** The FirstName field of a body row: the third of the twelve columns. *)
Definition first_name_of (row : list value) : value := nth 2 row NaN.

(** What the name chain leaves in one cell when nothing raises. *)
Definition norm (n : nat) (v : value) : value :=
  match v with
  | Str s => Str (filter is_ascii (strip (slice_to n s)))
  | _ => NaN
  end.

(** The [.str] accessor is accepted on the four name columns. *)
Definition names_accepted (df : DataFrame) : bool :=
  str_accessor_ok (col "FirstName" df)
  && str_accessor_ok (col "MiddleInitial" df)
  && str_accessor_ok (col "LastName" df)
  && str_accessor_ok (col "Suffix" df).

Definition missing_required (df : DataFrame) : bool :=
  existsb (fun item => negb (has_column item df)) required_columns.

(** A date column that [cvtdate] converts without raising, when its first
    cell selects that path. *)
Definition dates_convert (s : Series) : bool :=
  if first_is_date s then forallb is_date s else true.

(** The tables on which [create_request] returns. *)
Definition builds (to_datetime_Ymd : Series -> bool) (df : DataFrame) : bool :=
  negb (empty df) && negb (missing_required df) && names_accepted df
  && (if first_is_date (col "DOB" df) then forallb is_date (col "DOB" df)
      else to_datetime_Ymd (col "DOB" df))
  && (if has_column "SearchBeginDate" df
      then dates_convert (col "SearchBeginDate" df) else true)
  && (if has_column "ReturnRequestField" df
      then str_accessor_ok (col "ReturnRequestField" df) else true).

(** A strict reading of [%Y%m%d], used to run the examples: eight digits,
    a month from 1 to 12 and a day of that month. *)
Definition is_digit (c : N) : bool := ((48 <=? c) && (c <=? 57))%N.

Definition digits_value (s : pystr) : nat :=
  fold_left (fun acc c => 10 * acc + (N.to_nat c - 48)) s 0.

Definition is_leap (y : nat) : bool :=
  ((y mod 4 =? 0) && negb (y mod 100 =? 0)) || (y mod 400 =? 0).

Definition days_in_month (y m : nat) : nat :=
  match m with
  | 2 => if is_leap y then 29 else 28
  | 4 | 6 | 9 | 11 => 30
  | _ => 31
  end.

Definition parses_Ymd (s : pystr) : bool :=
  (List.length s =? 8) && forallb is_digit s
  && (let y := digits_value (firstn 4 s) in
      let m := digits_value (firstn 2 (skipn 4 s)) in
      let d := digits_value (skipn 6 s) in
      (1 <=? y) && (1 <=? m) && (m <=? 12) && (1 <=? d)
      && (d <=? days_in_month y m)).

Definition to_datetime_strict (s : Series) : bool :=
  forallb (fun v => match v with
                    | NaN => true
                    | Date _ _ _ => true
                    | Str x => parses_Ymd x
                    | Bytes _ => false
                    end) s.




Definition ex_self : NSCRequest :=
  {| fice := lit "999999"; branch := lit "00"; name := lit "MySchool";
     inquiryType := lit "SE"; search := lit "20200101";
     enrolledStudents := Some true; r := None; h := None; t := None |}.

Definition ex_now : pystr := lit "20231101".

(** A table of the five required columns with the given FirstName and DOB
    cells. *)
Definition ex_table (first dob : Series) : DataFrame :=
  let n := List.length first in
  {| nrows := n;
     columns := [("FirstName", first);
                 ("MiddleInitial", repeat (Str (lit "M")) n);
                 ("LastName", repeat (Str (lit "LN")) n);
                 ("Suffix", repeat (Str []) n);
                 ("DOB", dob)] |}.


Definition ex_blank : DataFrame :=
  ex_table [Str (lit "   ")] [Str (lit "20000101")].

Definition ex_null : DataFrame :=
  ex_table [Str (lit "FN1"); NaN] [Str (lit "20000101"); Str (lit "20000202")].




End Request.

(* ===================================================================== *)
(** ** The return-file converter: [nsc_return_se_convert.py]              *)
(* ===================================================================== *)

Module Return.

(** One cell.  [pd.read_csv(fn, dtype=str)] yields text or NaN; the
    converter adds timestamps (as day numbers) and integers. *)
Inductive value :=
| NaN                       (* NaN, NaT *)
| Str (s : pystr)
| Num (z : Z)               (* counts, day spans, the default 0 *)
| Date (d : Z).             (* a Timestamp at midnight: its day number *)

(** A row maps column labels to cells; a label that is not there reads as
    NaN, which is what [pd.concat] puts in the columns a frame lacks. *)
Definition row := list (string * value).
Definition frame := list row.

Fixpoint get (c : string) (r : row) : value :=
  match r with
  | [] => NaN
  | (k, v) :: rest => if String.eqb k c then v else get c rest
  end.

Fixpoint set (c : string) (v : value) (r : row) : row :=
  match r with
  | [] => [(c, v)]
  | (k, old) :: rest =>
      if String.eqb k c then (k, v) :: rest else (k, old) :: set c v rest
  end.

Definition isna (v : value) : bool :=
  match v with NaN => true | _ => false end.

Definition notna (v : value) : bool := negb (isna v).

(** Equality of cells as join keys and group keys compare them. *)
Definition value_eqb (a b : value) : bool :=
  match a, b with
  | NaN, NaN => true
  | Str x, Str y => pystr_eqb x y
  | Num x, Num y => Z.eqb x y
  | Date x, Date y => Z.eqb x y
  | _, _ => false
  end.

(** [series == scalar]: a NaN cell equals nothing. *)
Definition py_eq (a b : value) : bool := notna a && value_eqb a b.

(** [frame[c]] *)
Definition col (c : string) (f : frame) : list value := map (get c) f.

(** [frame[c] = series] *)
Definition assign (c : string) (s : list value) (f : frame) : frame :=
  map (fun p => set c (fst p) (snd p)) (combine s f).

(** [series.fillna(v)] *)
Definition fillna (v : value) (s : list value) : list value :=
  map (fun x => if isna x then v else x) s.

(** [frame[frame[c] == v]] *)
Definition where_eq (c : string) (v : value) (f : frame) : frame :=
  filter (fun r => py_eq (get c r) v) f.

(** [frame.loc[:, cs]] and [frame[cs]] *)
Definition loc_columns (cs : list string) (f : frame) : frame :=
  map (fun r => map (fun c => (c, get c r)) cs) f.

(** [frame.drop(cs, axis=1)] *)
Definition drop (cs : list string) (f : frame) : frame :=
  map (filter (fun kv : string * value =>
                 negb (existsb (String.eqb (fst kv)) cs))) f.

(** The labels from [a] through [b] of a header: [.loc[:, a:b]]. *)
Fixpoint from_label (a : string) (h : list string) : list string :=
  match h with
  | [] => []
  | c :: rest => if String.eqb c a then h else from_label a rest
  end.

Fixpoint through_label (b : string) (h : list string) : list string :=
  match h with
  | [] => []
  | c :: rest => if String.eqb c b then [c] else c :: through_label b rest
  end.

Definition label_slice (a b : string) (h : list string) : list string :=
  through_label b (from_label a h).

(** *** groupby *)

(** The key of a row under [groupby(keys)]; with the default
    [dropna=True] a row with a null key cell is in no group. *)
Definition group_key (keys : list string) (r : row) : option (list value) :=
  let k := map (fun c => get c r) keys in
  if existsb isna k then None else Some k.

Fixpoint key_eqb (a b : list value) : bool :=
  match a, b with
  | [], [] => true
  | x :: a', y :: b' => value_eqb x y && key_eqb a' b'
  | _, _ => false
  end.

Definition in_group (keys : list string) (k : list value) (r : row) : bool :=
  match group_key keys r with
  | Some k' => key_eqb k k'
  | None => false
  end.

(** [groupby(keys)[c].transform(agg)]: in every row the aggregate of the
    column over the rows of its group; NaN in a row outside every group. *)
Definition groupby_transform (keys : list string)
  (agg : list value -> value) (c : string) (f : frame) : list value :=
  map (fun r => match group_key keys r with
                | Some k => agg (col c (filter (in_group keys k) f))
                | None => NaN
                end) f.

(** [groupby(keys)[c].ffill()]: a null cell takes the value of the nearest
    preceding row of its group that has one.  [prev] holds the rows
    already passed, nearest first. *)
Fixpoint ffill_from (keys : list string) (c : string) (prev : list row)
  (f : frame) : list value :=
  match f with
  | [] => []
  | r :: rest =>
      match group_key keys r with
      | Some k =>
          if notna (get c r) then get c r
          else match find (fun p => in_group keys k p && notna (get c p))
                          prev with
               | Some p => get c p
               | None => NaN
               end
      | None => NaN
      end :: ffill_from keys c (r :: prev) rest
  end.

Definition groupby_ffill (keys : list string) (c : string) (f : frame)
  : list value := ffill_from keys c [] f.

(** [groupby(keys)[c].cumcount()]: the number of earlier rows of the
    group. *)
Fixpoint cumcount_from (keys : list string) (prev : list row) (f : frame)
  : list value :=
  match f with
  | [] => []
  | r :: rest =>
      match group_key keys r with
      | Some k => Num (Z.of_nat (List.length (filter (in_group keys k) prev)))
      | None => NaN
      end :: cumcount_from keys (r :: prev) rest
  end.

Definition groupby_cumcount (keys : list string) (f : frame) : list value :=
  cumcount_from keys [] f.

(** [series + 1] *)
Definition plus_one (s : list value) : list value :=
  map (fun v => match v with Num z => Num (z + 1) | _ => NaN end) s.

(** [end - begin] of two timestamp columns followed by [.dt.days]. *)
Definition days_between (e b : value) : value :=
  match e, b with
  | Date x, Date y => Num (x - y)
  | _, _ => NaN
  end.

Fixpoint map2 {A B C} (f : A -> B -> C) (l1 : list A) (l2 : list B)
  : list C :=
  match l1, l2 with
  | a :: t1, b :: t2 => f a b :: map2 f t1 t2
  | _, _ => []
  end.

(** The aggregations: each skips the null cells. *)
Definition dates_of (s : list value) : list Z :=
  flat_map (fun v => match v with Date d => [d] | _ => [] end) s.

Definition nums_of (s : list value) : list Z :=
  flat_map (fun v => match v with Num z => [z] | _ => [] end) s.

Definition agg_count (s : list value) : value :=
  Num (Z.of_nat (List.length (filter notna s))).

Definition agg_min (s : list value) : value :=
  match dates_of s with
  | [] => NaN
  | d :: ds => Date (fold_left Z.min ds d)
  end.

Definition agg_max (s : list value) : value :=
  match dates_of s with
  | [] => NaN
  | d :: ds => Date (fold_left Z.max ds d)
  end.

Definition agg_sum (s : list value) : value :=
  Num (fold_left Z.add (nums_of s) 0%Z).

Definition agg_last (s : list value) : value :=
  match rev (filter notna s) with
  | [] => NaN
  | v :: _ => v
  end.

(** *** merge and sort *)

(** [pd.merge(left, right, how='left', on=keys)]: every left row once per
    right row with the same key cells (a null key cell matches a null key
    cell), in the order of the right frame, with the other columns of the
    right row; a left row without a match once, with those columns null. *)
Definition keys_match (keys : list string) (l g : row) : bool :=
  forallb (fun c => value_eqb (get c l) (get c g)) keys.

Definition attach (cs : list string) (l g : row) : row :=
  fold_left (fun acc c => set c (get c g) acc) cs l.

Definition merge_left (keys others : list string) (left right : frame)
  : frame :=
  flat_map (fun l =>
              match filter (keys_match keys l) right with
              | [] => [attach others l []]
              | ms => map (attach others l) ms
              end) left.

(** The order of two cells under [sort_values]: text by code points, NaN
    last.  The sorted columns hold text or NaN only; the other cases make
    the order total. *)
Fixpoint text_leb (a b : pystr) : bool :=
  match a, b with
  | [], _ => true
  | _ :: _, [] => false
  | x :: a', y :: b' => (x <? y)%N || ((x =? y)%N && text_leb a' b')
  end.

Definition value_leb (a b : value) : bool :=
  match a, b with
  | _, NaN => true
  | NaN, _ => false
  | Str x, Str y => text_leb x y
  | Str _, _ => true
  | _, Str _ => false
  | Num x, Num y => (x <=? y)%Z
  | Num _, _ => true
  | _, Num _ => false
  | Date x, Date y => (x <=? y)%Z
  end.

Fixpoint keys_leb (keys : list string) (a b : row) : bool :=
  match keys with
  | [] => true
  | c :: rest =>
      if value_eqb (get c a) (get c b) then keys_leb rest a b
      else value_leb (get c a) (get c b)
  end.

Fixpoint insert_sorted (keys : list string) (x : row) (f : frame) : frame :=
  match f with
  | [] => [x]
  | y :: rest =>
      if keys_leb keys x y then x :: f else y :: insert_sorted keys x rest
  end.

(** [frame.sort_values(keys)]: a stable sort. *)
Definition sort_values (keys : list string) (f : frame) : frame :=
  fold_right (insert_sorted keys) [] f.

(** [frame.fillna('')] *)
Definition fillna_all (v : value) (f : frame) : frame :=
  map (map (fun kv : string * value =>
              (fst kv, if isna (snd kv) then v else snd kv))) f.

(** *** The column lists of the source *)

Definition degree_columns : list string :=
  ["Graduated?"; "Graduation Date"; "Degree Title";
   "Degree Major 1"; "Degree CIP 1"; "Degree Major 2"; "Degree CIP 2";
   "Degree Major 3"; "Degree CIP 3"; "Degree Major 4"; "Degree CIP 4"].

Definition join_keys : list string :=
  ["Last Name"; "First Name"; "Middle Initial"; "Name Suffix";
   "College Sequence"].

Definition fill_keys : list string :=
  ["Last Name"; "First Name"; "Middle Initial"; "Name Suffix";
   "Requester Return Field"; "Enrollment Begin"].

Definition period_keys : list string :=
  ["Last Name"; "First Name"; "Middle Initial"; "Name Suffix";
   "Requester Return Field"; "College Sequence"].

Definition output_columns : list string :=
  ["Last Name"; "First Name"; "Middle Initial"; "Name Suffix";
   "Requester Return Field"; "Record Found Y/N"; "Search Date";
   "College Sequence"; "College Code/Branch"; "College Name";
   "College State"; "2-year / 4-year"; "Public / Private";
   "Enrollment Begin"; "Enrollment End"; "Enrollment Status";
   "Class Level"; "Enrollment Major 1"; "Enrollment CIP 1";
   "Enrollment Major 2"; "Enrollment CIP 2";
   "Last Enrollment Major 1"; "Last Enrollment CIP 1";
   "Last Enrollment Major 2"; "Last Enrollment CIP 2";
   "Semesters at Institution"; "Total Enrollment Days";
   "Graduated?"; "Graduation Date"; "Degree Title";
   "Degree Major 1"; "Degree CIP 1"; "Degree Major 2"; "Degree CIP 2";
   "Degree Major 3"; "Degree CIP 3"; "Degree Major 4"; "Degree CIP 4"].


Section Converter.

(** [pd.to_datetime(text, format='%Y%m%d')] on one text is pandas code:
    the day number it yields, or [None] where it raises, is a parameter of
    the model. *)
Variable strptime_Ymd : pystr -> option Z.

(** [pd.to_datetime(series, format='%Y%m%d')] *)
Definition to_datetime_cell (v : value) : result value :=
  match v with
  | Str s => match strptime_Ymd s with
             | Some d => Ok (Date d)
             | None => Raise (ValueError "time data does not match format")
             end
  | Date d => Ok (Date d)
  | _ => Ok NaN
  end.

Fixpoint to_datetime (s : list value) : result (list value) :=
  match s with
  | [] => Ok []
  | v :: rest =>
      d <- to_datetime_cell v ;; ds <- to_datetime rest ;; Ok (d :: ds)
  end.

(** Lines 22-23: the null MiddleInitial and NameSuffix become ''. *)
Definition fill_names (students : frame) : frame :=
  let students :=
    assign "Middle Initial"
           (fillna (Str []) (col "Middle Initial" students)) students in
  assign "Name Suffix" (fillna (Str []) (col "Name Suffix" students)) students.

(** Lines 26-29: the students without activity. *)
Definition no_activity (header : list string) (students : frame) : frame :=
  let no_act := where_eq "Record Found Y/N" (Str (lit "N")) students in
  loc_columns (label_slice "Your Unique Identifier" "Search Date" header)
              no_act.

(** Lines 32-44: the found records, with their dates and day spans. *)
Definition found_records (students : frame) : result frame :=
  let students := where_eq "Record Found Y/N" (Str (lit "Y")) students in
  b <- to_datetime (col "Enrollment Begin" students) ;;
  let students := assign "Enrollment Begin" b students in
  e <- to_datetime (col "Enrollment End" students) ;;
  let students := assign "Enrollment End" e students in
  let students :=
    assign "Enrollment Days"
           (map2 days_between (col "Enrollment End" students)
                              (col "Enrollment Begin" students)) students in
  let students :=
    assign "Enrollment Major 2"
           (fillna (Str []) (col "Enrollment Major 2" students)) students in
  let students :=
    assign "Enrollment CIP 2"
           (fillna (Str []) (col "Enrollment CIP 2" students)) students in
  Ok students.

(** Lines 48-59: the graduation records. *)
Definition graduation_facts (students : frame) : frame :=
  let graduated := where_eq "Graduated?" (Str (lit "Y")) students in
  let graduated := loc_columns (join_keys ++ degree_columns)%list graduated in
  let graduated :=
    assign "Degree Title"
           (fillna (Str (lit "UNKNOWN")) (col "Degree Title" graduated))
           graduated in
  let graduated :=
    assign "Degree Major 1"
           (fillna (Str (lit "UNKNOWN")) (col "Degree Major 1" graduated))
           graduated in
  assign "Degree CIP 1"
         (fillna (Str (lit "UNKNOWN")) (col "Degree CIP 1" graduated))
         graduated.

(** Lines 63-75: the enrollment records, with the college sequence filled
    down.  [students['RowNumber'] = students.index] of line 71 is left
    out: the column is read nowhere and dropped at line 99. *)
Definition enrollments (students : frame) : frame :=
  let students := where_eq "Graduated?" (Str (lit "N")) students in
  let students := drop degree_columns students in
  assign "College Sequence"
         (groupby_ffill fill_keys "College Sequence" students) students.

(** Lines 79-99: one row for every period. *)
Definition enrollment_periods (students : frame) : frame :=
  let students :=
    assign "Semesters at Institution"
           (groupby_transform period_keys agg_count "Enrollment Begin"
                              students) students in
  let students :=
    assign "SemesterIndex"
           (plus_one (groupby_cumcount period_keys students)) students in
  let students :=
    assign "Enrollment Begin"
           (groupby_transform period_keys agg_min "Enrollment Begin"
                              students) students in
  let students :=
    assign "Enrollment End"
           (groupby_transform period_keys agg_max "Enrollment End"
                              students) students in
  let students :=
    assign "Total Enrollment Days"
           (groupby_transform period_keys agg_sum "Enrollment Days"
                              students) students in
  let students :=
    assign "Last Enrollment Major 1"
           (groupby_transform period_keys agg_last "Enrollment Major 1"
                              students) students in
  let students :=
    assign "Last Enrollment CIP 1"
           (groupby_transform period_keys agg_last "Enrollment CIP 1"
                              students) students in
  let students :=
    assign "Last Enrollment Major 2"
           (groupby_transform period_keys agg_last "Enrollment Major 2"
                              students) students in
  let students :=
    assign "Last Enrollment CIP 2"
           (groupby_transform period_keys agg_last "Enrollment CIP 2"
                              students) students in
  let students := where_eq "SemesterIndex" (Num 1) students in
  drop ["RowNumber"; "SemesterIndex"] students.

(** Lines 102-144: the no-activity rows come back, the graduation records
    are joined, and the table is sorted, projected and filled. *)
Definition finish (students no_act graduated : frame) : frame :=
  let students := (students ++ no_act)%list in
  let students := merge_left join_keys degree_columns students graduated in
  let students :=
    assign "Graduated?"
           (fillna (Str (lit "N")) (col "Graduated?" students)) students in
  let students := sort_values period_keys students in
  let students := loc_columns output_columns students in
  let students :=
    assign "College Sequence"
           (fillna (Num 0) (col "College Sequence" students)) students in
  let students :=
    assign "Semesters at Institution"
           (fillna (Num 0) (col "Semesters at Institution" students))
           students in
  let students :=
    assign "Total Enrollment Days"
           (fillna (Num 0) (col "Total Enrollment Days" students))
           students in
  fillna_all (Str []) students.

(** [nsc_return_se_convert], on the header and the rows that
    [pd.read_csv(fn, dtype=str)] has read. *)
Definition nsc_return_se_convert (header : list string) (students : frame)
  : result frame :=
  let students := fill_names students in
  let no_act := no_activity header students in
  found <- found_records students ;;
  let graduated := graduation_facts found in
  let students := enrollment_periods (enrollments found) in
  Ok (finish students no_act graduated).

End Converter.

End Return.

(* ===================================================================== *)
(** ** The tables the two programs build, row by row                     *)
(* ===================================================================== *)

Unset Implicit Arguments.

Module RequestRows.

Import Request.
Local Open Scope list_scope.

(** *** The request table, column by column and row by row *)

(** The SSN column of [r]: the caller's column when the inquiry is 'PA'
    for students who are not enrolled and the table has one, the empty
    string in every row otherwise. *)
Definition ssn_column (self : NSCRequest) (df : DataFrame) : Series :=
  if ssn_allowed self df then col "SSN" df else broadcast (nrows df) (Str []).

(** A date column after the conversion: formatted when its first cell is
    date-typed, left as it is otherwise. *)
Definition date_column (s : Series) : Series :=
  if first_is_date s then map fmt_date s else s.

(** The SearchBeginDate column of [r]. *)
Definition search_column (self : NSCRequest) (df : DataFrame) : Series :=
  if has_column "SearchBeginDate" df then date_column (col "SearchBeginDate" df)
  else broadcast (nrows df) (Str (search self)).

(** [.str[:50].str.strip()] on one cell. *)
Definition trim50 (v : value) : value := str_strip (str_slice_to 50 v).

(** The ReturnRequestField column of [r]. *)
Definition return_column (df : DataFrame) : Series :=
  if has_column "ReturnRequestField" df
  then map trim50 (col "ReturnRequestField" df)
  else broadcast (nrows df) (Str []).

(** The twelve fields of the body row made from row [i] of the caller's
    table, in the order of [out_columns]. *)
Definition request_row (self : NSCRequest) (df : DataFrame) (i : nat)
  : list value :=
  [Str (lit "D1");
   nth i (ssn_column self df) NaN;
   norm 20 (nth i (col "FirstName" df) NaN);
   norm 1 (nth i (col "MiddleInitial" df) NaN);
   norm 20 (nth i (col "LastName" df) NaN);
   norm 5 (nth i (col "Suffix" df) NaN);
   nth i (date_column (col "DOB" df)) NaN;
   nth i (search_column self df) NaN;
   Str [];
   Str (fice self);
   Str (branch self);
   nth i (return_column df) NaN].

(** The index labels that [r.loc[r.FirstName.notna(), ...]] keeps: the rows
    whose FirstName is text. *)
Definition kept_rows (df : DataFrame) : list nat :=
  filter (fun i => is_str (nth i (col "FirstName" df) NaN)) (seq 0 (nrows df)).

(** The columns of [r] before the final selection, in the order of the
    assignments. *)
Definition built_columns (self : NSCRequest) (df : DataFrame)
  : list (string * Series) :=
  [("SSN", ssn_column self df);
   ("FirstName", map (norm 20) (col "FirstName" df));
   ("MiddleInitial", map (norm 1) (col "MiddleInitial" df));
   ("LastName", map (norm 20) (col "LastName" df));
   ("Suffix", map (norm 5) (col "Suffix" df));
   ("DOB", date_column (col "DOB" df));
   ("SearchBeginDate", search_column self df);
   ("RecordType", broadcast (nrows df) (Str (lit "D1")));
   ("Blank", broadcast (nrows df) (Str []));
   ("SchoolCode", broadcast (nrows df) (Str (fice self)));
   ("BranchCode", broadcast (nrows df) (Str (branch self)));
   ("ReturnRequestField", return_column df)].

(** A null, or text of at most [k] characters, all of them ASCII. *)
Definition bounded_ascii (k : nat) (v : value) : bool :=
  match v with
  | Str s => (List.length s <=? k) && forallb is_ascii s
  | NaN => true
  | _ => false
  end.

(** A null, text of at most 50 characters with no whitespace at either end,
    or at most 50 bytes. *)
Definition trimmed50 (v : value) : bool :=
  match v with
  | Str s => (List.length s <=? 50) && trimmed s
  | Bytes b => List.length b <=? 50
  | NaN => true
  | Date _ _ _ => false
  end.

(** *** The constructor *)

(** The entries of [config['school']] that the constructor reads. *)
Record school := mkSchool {
  school_fice : pystr;
  school_branch : pystr;
  school_name : pystr
}.

(** [NSCRequest.__init__] of [studentclearinghouse/nsc_request.py], called
    with a [config] dictionary: the attributes [create_request] reads, and
    [self.filename].  [now] is today's date as [%Y%m%d]; [enrolledStudents]
    is [None] when the argument is left out.  The output path, which is
    only stored and checked for a warning, is left out. *)
Definition init (config : school) (filename inquiryType search : pystr)
  (enrolledStudents : option bool) (now : pystr)
  : result (NSCRequest * pystr) :=
  let inquiryType' :=
    if pystr_eqb inquiryType [] then lit "PA" else inquiryType in
  match expand_partial_search_date now search with
  | Raise e => Raise e
  | Ok search' =>
      let self :=
        {| fice := school_fice config; branch := school_branch config;
           name := school_name config; inquiryType := inquiryType';
           search := search'; enrolledStudents := enrolledStudents;
           r := None; h := None; t := None |} in
      Ok (self,
          if pystr_eqb filename []
          then (school_fice config +++ lit "-" +++ school_branch config
                +++ lit "_" +++ inquiryType' +++ lit "_" +++ search'
                +++ lit ".csv")
          else filename)
  end.

(** *** Failures other than [ValueError] *)

Definition contains_error : exn :=
  AttributeError "'str' object has no attribute 'contains'".






(** *** Decimal digits *)

(** [digits_value] with a starting value. *)
Definition digits_from (acc : nat) (s : pystr) : nat :=
  fold_left (fun acc c => 10 * acc + (N.to_nat c - 48)) s acc.

(** *** Inputs of the examples *)

(** A request object that may send SSNs, and a table with the three
    optional columns: the second row has a null FirstName, the third a long
    ReturnRequestField and a name with a non-ASCII letter. *)
Definition ex_self_pa : NSCRequest :=
  {| fice := lit "999999"; branch := lit "00"; name := lit "MySchool";
     inquiryType := lit "PA"; search := lit "20200101";
     enrolledStudents := Some false; r := None; h := None; t := None |}.

Definition ex_full : DataFrame :=
  {| nrows := 3;
     columns :=
       [("SSN", [Str (lit "111223333"); Str (lit "444556666"); NaN]);
        ("FirstName", [Str (lit "  Ann "); NaN; Str [74; 111; 115; 233]%N]);
        ("MiddleInitial", [Str (lit "Marie"); Str (lit "B"); NaN]);
        ("LastName", [Str (lit "A-very-long-family-name-indeed");
                      Str (lit "X"); Str (lit "Diaz")]);
        ("Suffix", [Str []; Str []; Str (lit "Junior")]);
        ("DOB", [Date 2000 1 31; Date 1999 12 1; Date 2001 2 3]);
        ("SearchBeginDate", [Str (lit "20200801"); Str (lit "20200801");
                             Str (lit "20210101")]);
        ("ReturnRequestField",
         [Str (lit " id-1 "); Str (lit "id-2");
          Str (lit "0123456789012345678901234567890123456789012345678 9 tail")])] |}.

End RequestRows.

Module ReturnRows.

Import Return.
Local Open Scope list_scope.

(** *** Groups and the per-period summary *)

(** Two rows that agree on the columns [cs]. *)
Definition same_on (cs : list string) (a b : row) : Prop :=
  forall c, In c cs -> get c a = get c b.

(** The value [groupby(keys)[src].transform(agg)] puts in the row [r] of
    the table [W]: the aggregate of the rows of [r]'s group, NaN for a row
    that has a null key. *)
Definition group_agg (keys : list string) (agg : list value -> value)
  (src : string) (W : frame) (r : row) : value :=
  match group_key keys r with
  | Some k => agg (col src (filter (in_group keys k) W))
  | None => NaN
  end.

(** [drop(columns=cs)] on one row. *)
Definition drop_row (cs : list string) (r : row) : row :=
  filter (fun kv : string * value => negb (existsb (String.eqb (fst kv)) cs)) r.

(** The row [r] of the working table [W] after the nine assignments of
    lines 79-97, with [idx] in SemesterIndex. *)
Definition summary (W : frame) (r : row) (idx : value) : row :=
  set "Last Enrollment CIP 2"
      (group_agg period_keys agg_last "Enrollment CIP 2" W r)
  (set "Last Enrollment Major 2"
      (group_agg period_keys agg_last "Enrollment Major 2" W r)
  (set "Last Enrollment CIP 1"
      (group_agg period_keys agg_last "Enrollment CIP 1" W r)
  (set "Last Enrollment Major 1"
      (group_agg period_keys agg_last "Enrollment Major 1" W r)
  (set "Total Enrollment Days"
      (group_agg period_keys agg_sum "Enrollment Days" W r)
  (set "Enrollment End"
      (group_agg period_keys agg_max "Enrollment End" W r)
  (set "Enrollment Begin"
      (group_agg period_keys agg_min "Enrollment Begin" W r)
  (set "SemesterIndex" idx
  (set "Semesters at Institution"
      (group_agg period_keys agg_count "Enrollment Begin" W r)
       r)))))))).

(** The rows of [W] with their SemesterIndex. *)
Definition indexed (W : frame) : list (row * value) :=
  combine W (plus_one (groupby_cumcount period_keys W)).

(** The one row a group leaves in the table of periods, made from the
    group's first row [r]. *)
Definition period_row (W : frame) (r : row) : row :=
  drop_row ["RowNumber"; "SemesterIndex"] (summary W r (Num 1)).

(** *** The found records *)

(** [pd.to_datetime] on a cell that parses. *)
Definition dt (strptime : pystr -> option Z) (v : value) : value :=
  match v with
  | Str s => match strptime s with Some d => Date d | None => NaN end
  | Date d => Date d
  | _ => NaN
  end.

(** A cell [pd.to_datetime] accepts: anything but text that does not
    parse. *)
Definition parses (strptime : pystr -> option Z) (v : value) : bool :=
  match v with
  | Str x => match strptime x with Some _ => true | None => false end
  | _ => true
  end.

Definition dates_parse (strptime : pystr -> option Z) (r : row) : bool :=
  parses strptime (get "Enrollment Begin" r)
  && parses strptime (get "Enrollment End" r).

(** The error of [pd.to_datetime] on text that is not [%Y%m%d]. *)
Definition format_error : exn := ValueError "time data does not match format".

Definition is_date_or_nan (v : value) : bool :=
  match v with Date _ | NaN => true | _ => false end.

Definition is_timestamp (v : value) : bool :=
  match v with Date _ => true | _ => false end.

Definition day_of (v : value) : Z :=
  match v with Date d => d | _ => 0%Z end.

(** [fillna('')] on one cell. *)
Definition fill_text (v : value) : value := if isna v then Str [] else v.

(** A found row after lines 34-39: both dates parsed, the day span, the
    second major and CIP filled. *)
Definition found_row (strptime : pystr -> option Z) (r : row) : row :=
  set "Enrollment CIP 2" (fill_text (get "Enrollment CIP 2" r))
  (set "Enrollment Major 2" (fill_text (get "Enrollment Major 2" r))
  (set "Enrollment Days"
       (days_between (dt strptime (get "Enrollment End" r))
                     (dt strptime (get "Enrollment Begin" r)))
  (set "Enrollment End" (dt strptime (get "Enrollment End" r))
  (set "Enrollment Begin" (dt strptime (get "Enrollment Begin" r)) r)))).

(** A row after lines 21-22. *)
Definition fill_names_row (r : row) : row :=
  let r1 := set "Middle Initial" (fill_text (get "Middle Initial" r)) r in
  set "Name Suffix" (fill_text (get "Name Suffix" r1)) r1.

(** What holds of every row of the working table of enrollments. *)
Definition enrolled (w : row) : Prop :=
  is_date_or_nan (get "Enrollment Begin" w) = true
  /\ is_date_or_nan (get "Enrollment End" w) = true
  /\ get "Enrollment Days" w
     = days_between (get "Enrollment End" w) (get "Enrollment Begin" w)
  /\ notna (get "Enrollment Major 2" w) = true
  /\ notna (get "Enrollment CIP 2" w) = true
  /\ get "Record Found Y/N" w = Str (lit "Y")
  /\ (notna (get "College Sequence" w) = true ->
      notna (get "Enrollment Begin" w) = true).

(** The day span of one enrollment row. *)
Definition span (r : row) : Z :=
  (day_of (get "Enrollment End" r) - day_of (get "Enrollment Begin" r))%Z.

Definition Zsum (l : list Z) : Z := fold_left Z.add l 0%Z.

(** *** The flags *)

Definition flag_Y (r : row) : bool :=
  py_eq (get "Record Found Y/N" r) (Str (lit "Y")).

Definition flag_N (r : row) : bool :=
  py_eq (get "Record Found Y/N" r) (Str (lit "N")).

Definition grad_Y (r : row) : bool :=
  py_eq (get "Graduated?" r) (Str (lit "Y")).

Definition grad_N (r : row) : bool :=
  py_eq (get "Graduated?" r) (Str (lit "N")).

(** A found row whose Graduated? cell is neither 'Y' nor 'N'. *)
Definition unflagged (r : row) : bool :=
  flag_Y r && negb (grad_Y r) && negb (grad_N r).

Definition flagged (r : row) : bool := negb (unflagged r).

(** The output rows of the period with key [k]. *)
Definition sel (k : list value) (o : row) : bool :=
  in_group period_keys k o && flag_Y o.

(** A row of the left table of the merge: a period, or a student without
    activity. *)
Definition found_like (r : row) : Prop :=
  (group_key period_keys r <> None /\ get "Record Found Y/N" r = Str (lit "Y"))
  \/ get "Record Found Y/N" r = NaN
  \/ get "Record Found Y/N" r = Str (lit "N").

(** The columns that identify a person and a request. *)
Definition person_columns : list string :=
  ["Last Name"; "First Name"; "Middle Initial"; "Name Suffix";
   "Requester Return Field"].

(** *** The graduation facts and the merge *)

(** The degree columns other than Graduated?. *)
Definition detail_columns : list string := tl degree_columns.

(** A graduation row after lines 50-60. *)
Definition fact_row (r : row) : row :=
  let g := map (fun c => (c, get c r)) (join_keys ++ degree_columns) in
  let g := set "Degree Title"
               (if isna (get "Degree Title" g) then Str (lit "UNKNOWN")
                else get "Degree Title" g) g in
  let g := set "Degree Major 1"
               (if isna (get "Degree Major 1" g) then Str (lit "UNKNOWN")
                else get "Degree Major 1" g) g in
  set "Degree CIP 1"
      (if isna (get "Degree CIP 1" g) then Str (lit "UNKNOWN")
       else get "Degree CIP 1" g) g.

(** The rows the left merge makes of the left row [l]: one per matching
    graduation fact, or one with null degree columns. *)
Definition joined (Gr : frame) (l : row) : list row :=
  match filter (keys_match join_keys l) Gr with
  | [] => [attach degree_columns l []]
  | ms => map (attach degree_columns l) ms
  end.

(** Line 108 on one row. *)
Definition grad_default (r : row) : row :=
  set "Graduated?"
      (if isna (get "Graduated?" r) then Str (lit "N") else get "Graduated?" r) r.

(** Lines 119-142 on one row: the output columns, the three integer
    defaults, then the empty string for what is still null. *)
Definition final_row (r : row) : row :=
  let r0 := map (fun c => (c, get c r)) output_columns in
  let r1 := set "College Sequence"
              (if isna (get "College Sequence" r0) then Num 0
               else get "College Sequence" r0) r0 in
  let r2 := set "Semesters at Institution"
              (if isna (get "Semesters at Institution" r1) then Num 0
               else get "Semesters at Institution" r1) r1 in
  let r3 := set "Total Enrollment Days"
              (if isna (get "Total Enrollment Days" r2) then Num 0
               else get "Total Enrollment Days" r2) r2 in
  map (fun kv : string * value =>
         (fst kv, if isna (snd kv) then Str [] else snd kv)) r3.

Definition zero_columns : list string :=
  ["College Sequence"; "Semesters at Institution"; "Total Enrollment Days"].

(** What a null cell of the output column [c] becomes. *)
Definition default_of (c : string) (v : value) : value :=
  if isna v
  then (if existsb (String.eqb c) zero_columns then Num 0 else Str [])
  else v.

(** The degree columns whose nulls become "UNKNOWN" (lines 57-59). *)
Definition unknown_columns : list string :=
  ["Degree Title"; "Degree Major 1"; "Degree CIP 1"].

(** A degree cell of a graduation fact. *)
Definition fact_cell (c : string) (v : value) : value :=
  if existsb (String.eqb c) unknown_columns
  then (if isna v then Str (lit "UNKNOWN") else v)
  else v.

(** What the degree cell [v] of a graduation row becomes in the output. *)
Definition degree_cell (c : string) (v : value) : value :=
  if isna v
  then (if existsb (String.eqb c) unknown_columns then Str (lit "UNKNOWN")
        else Str [])
  else v.




(** *** Inputs of the examples *)

(** Days since 1970-01-01 of a date of the Gregorian calendar. *)
Definition day_number (y m d : Z) : Z :=
  let y' := if (m <=? 2)%Z then (y - 1)%Z else y in
  let era := (y' / 400)%Z in
  let yoe := (y' - era * 400)%Z in
  let mp := ((m + 9) mod 12)%Z in
  let doy := ((153 * mp + 2) / 5 + d - 1)%Z in
  let doe := (yoe * 365 + yoe / 4 - yoe / 100 + doy)%Z in
  (era * 146097 + doe - 719468)%Z.

(** A strict [%Y%m%d] parser, used to run the examples. *)
Definition strptime_strict (s : pystr) : option Z :=
  if Request.parses_Ymd s
  then Some (day_number
               (Z.of_nat (Request.digits_value (firstn 4 s)))
               (Z.of_nat (Request.digits_value (firstn 2 (skipn 4 s))))
               (Z.of_nat (Request.digits_value (skipn 6 s))))
  else None.

(** The header of a return file. *)
Definition ex_header : list string :=
  ["Your Unique Identifier"; "First Name"; "Middle Initial"; "Last Name";
   "Name Suffix"; "Requester Return Field"; "Record Found Y/N";
   "Search Date"; "College Code/Branch"; "College Name"; "College State";
   "2-year / 4-year"; "Public / Private"; "Enrollment Begin";
   "Enrollment End"; "Enrollment Status"; "Class Level";
   "Enrollment Major 1"; "Enrollment CIP 1"; "Enrollment Major 2";
   "Enrollment CIP 2"; "Graduated?"; "Graduation Date"; "Degree Title";
   "Degree Major 1"; "Degree CIP 1"; "Degree Major 2"; "Degree CIP 2";
   "Degree Major 3"; "Degree CIP 3"; "Degree Major 4"; "Degree CIP 4";
   "College Sequence"].

(** A row of the file as [pd.read_csv(fn, dtype=str)] reads it: text in the
    listed cells, NaN in every other column of the header. *)
Definition ex_row (cells : list (string * string)) : row :=
  fold_left (fun r kv => set (fst kv) (Str (lit (snd kv))) r) cells
            (map (fun c => (c, NaN)) ex_header).

Definition ex_student : list (string * string) :=
  [("Your Unique Identifier", "1"); ("First Name", "John");
   ("Last Name", "Doe"); ("Requester Return Field", "ID1");
   ("Record Found Y/N", "Y"); ("Search Date", "20200101");
   ("College Code/Branch", "001"); ("College Name", "State U");
   ("College State", "NC"); ("2-year / 4-year", "4");
   ("Public / Private", "Public"); ("College Sequence", "1")].

(** One student with two enrollment rows at one college and two degrees
    there, a second student without activity, and a found row of a third
    whose Graduated? is blank. *)
Definition ex_students : frame :=
  [ex_row (ex_student ++
           [("Enrollment Begin", "20200115"); ("Enrollment End", "20200510");
            ("Enrollment Status", "F"); ("Enrollment Major 1", "BIO");
            ("Enrollment CIP 1", "26"); ("Graduated?", "N")]);
   ex_row (ex_student ++
           [("Enrollment Begin", "20200820"); ("Enrollment End", "20201215");
            ("Enrollment Status", "F"); ("Graduated?", "N")]);
   ex_row (ex_student ++
           [("Graduated?", "Y"); ("Graduation Date", "20210510");
            ("Degree Title", "BS"); ("Degree Major 1", "BIO");
            ("Degree CIP 1", "26")]);
   ex_row (ex_student ++
           [("Graduated?", "Y"); ("Graduation Date", "20210510");
            ("Degree Title", "CERT")]);
   ex_row [("Your Unique Identifier", "2"); ("First Name", "Ann");
           ("Last Name", "Roe"); ("Requester Return Field", "ID2");
           ("Record Found Y/N", "N"); ("Search Date", "20200101")];
   ex_row [("Your Unique Identifier", "3"); ("First Name", "Lee");
           ("Last Name", "Poe"); ("Requester Return Field", "ID3");
           ("Record Found Y/N", "Y"); ("Search Date", "20200101");
           ("College Code/Branch", "002"); ("College Sequence", "1")]].

(** What the converter computes on the example, step by step. *)
Definition ex_found : frame :=
  Eval vm_compute in
    match found_records strptime_strict (fill_names ex_students) with
    | Ok f => f
    | Raise _ => []
    end.

Definition ex_out : frame :=
  Eval vm_compute in
    match nsc_return_se_convert strptime_strict ex_header ex_students with
    | Ok f => f
    | Raise _ => []
    end.

(** The first enrollment row of the example and the key of its period. *)
Definition ex_enrollment : row :=
  Eval vm_compute in hd [] (enrollments ex_found).

Definition ex_key : list value :=
  Eval vm_compute in map (fun c => get c ex_enrollment) period_keys.

End ReturnRows.

Set Implicit Arguments.

(* ===================================================================== *)
(** ** Facts about Python text                                            *)
(* ===================================================================== *)

Module PyFacts.

Local Open Scope list_scope.

Lemma lstrip_split s :
  exists l, s = l ++ lstrip s /\ forallb isspace l = true.
Proof.
  induction s as [|c t IH]; simpl.
  - exists []. auto.
  - destruct (isspace c) eqn:E.
    + destruct IH as [l [H1 H2]]. exists (c :: l). simpl.
      rewrite E, H2. split; [congruence|reflexivity].
    + exists []. auto.
Qed.

Lemma lstrip_head s : starts_with_space (lstrip s) = false.
Proof.
  induction s as [|c t IH]; simpl; auto.
  destruct (isspace c) eqn:E; simpl; auto.
Qed.


Lemma lstrip_app_nonspace s c :
  isspace c = false -> exists u, lstrip (s ++ [c]) = u ++ [c].
Proof.
  intros Hc. induction s as [|a t IH]; simpl.
  - rewrite Hc. exists []. reflexivity.
  - destruct (isspace a).
    + exact IH.
    + exists (a :: t). reflexivity.
Qed.

Lemma rstrip_head s :
  starts_with_space s = false -> starts_with_space (rstrip s) = false.
Proof.
  destruct s as [|c t]; [reflexivity|]. simpl. intros Hc.
  unfold rstrip. simpl.
  destruct (lstrip_app_nonspace (rev t) c Hc) as [u ->].
  rewrite rev_app_distr. simpl. exact Hc.
Qed.

Lemma rstrip_split s :
  exists r, s = rstrip s ++ r /\ forallb isspace r = true.
Proof.
  unfold rstrip. destruct (lstrip_split (rev s)) as [l [H1 H2]].
  exists (rev l). split.
  - rewrite <- rev_app_distr, <- H1, rev_involutive. reflexivity.
  - rewrite forallb_forall in *. intros x Hx. apply H2, in_rev. exact Hx.
Qed.

Lemma rstrip_last s : starts_with_space (rev (rstrip s)) = false.
Proof. unfold rstrip. rewrite rev_involutive. apply lstrip_head. Qed.

Lemma strip_trimmed s : trimmed (strip s) = true.
Proof.
  unfold trimmed, strip.
  rewrite rstrip_last, rstrip_head by apply lstrip_head. reflexivity.
Qed.

Lemma strip_split s :
  exists l r, s = l ++ strip s ++ r
              /\ forallb isspace l = true /\ forallb isspace r = true.
Proof.
  destruct (lstrip_split s) as [l [H1 H2]].
  destruct (rstrip_split (lstrip s)) as [r [H3 H4]].
  exists l, r. unfold strip. rewrite <- H3. auto.
Qed.



Lemma strip_length s : List.length (strip s) <= List.length s.
Proof.
  destruct (strip_split s) as [l [r [H _]]].
  rewrite H at 2. rewrite !length_app. lia.
Qed.




Lemma forallb_filter_same (p : N -> bool) s : forallb p (filter p s) = true.
Proof.
  induction s as [|c t IH]; simpl; auto.
  destruct (p c) eqn:E; simpl; rewrite ?E; auto.
Qed.

End PyFacts.

(* ===================================================================== *)
(** ** Facts about the request builder                                    *)
(* ===================================================================== *)

Module RequestFacts.

Import Request PyFacts.
Local Open Scope list_scope.

(** *** The name normalization *)

Lemma decode_after_encode s :
  decode_ascii (encode_ascii_ignore s) = Ok (filter is_ascii s).
Proof.
  unfold decode_ascii, encode_ascii_ignore.
  rewrite forallb_filter_same. reflexivity.
Qed.

(** The chain never raises: it computes [norm]. *)
Lemma truncate_trim_ascii_norm n v :
  truncate_trim_ascii n v = Ok (norm n v).
Proof.
  unfold truncate_trim_ascii.
  destruct v as [|s|b|y m d]; simpl; try reflexivity.
  rewrite decode_after_encode. reflexivity.
Qed.

(** C3, as amended.  On a string the name normalization first cuts the
    value to its first [n] characters, then removes the leading and
    trailing whitespace of what is left (the cut [s[:n]] splits into a
    whitespace prefix, a middle part that neither begins nor ends with
    whitespace, and a whitespace suffix), and then keeps exactly the 7-bit
    ASCII characters of the middle part in their order.  A null stays
    null. *)
Theorem truncate_trim_ascii_order (n : nat) (s : pystr) :
  (exists l m r,
     slice_to n s = l ++ m ++ r
     /\ forallb isspace l = true /\ forallb isspace r = true
     /\ trimmed m = true
     /\ truncate_trim_ascii n (Str s) = Ok (Str (filter is_ascii m)))
  /\ truncate_trim_ascii n NaN = Ok NaN.
Proof.
  split; [|reflexivity].
  destruct (strip_split (slice_to n s)) as [l [r [H [Hl Hr]]]].
  exists l, (strip (slice_to n s)), r.
  repeat split; auto using strip_trimmed.
  apply truncate_trim_ascii_norm.
Qed.

(** C3, counterexample.  With a leading blank and 26 letters the source
    keeps 19 letters (cut to 20, then trimmed), while trimming before the
    cut keeps 20; and a null is not turned into the empty string. *)
Lemma truncate_trim_ascii_cuts_before_trimming :
  truncate_trim_ascii 20 (Str (lit " ABCDEFGHIJKLMNOPQRSTUVWXYZ"))
    = Ok (Str (lit "ABCDEFGHIJKLMNOPQRS"))
  /\ truncate_trim_ascii_spec 20 (Str (lit " ABCDEFGHIJKLMNOPQRSTUVWXYZ"))
    = Str (lit "ABCDEFGHIJKLMNOPQRST")
  /\ truncate_trim_ascii 20 (Str (lit " ABCDEFGHIJKLMNOPQRSTUVWXYZ"))
    <> Ok (truncate_trim_ascii_spec 20
             (Str (lit " ABCDEFGHIJKLMNOPQRSTUVWXYZ")))
  /\ truncate_trim_ascii 20 NaN <> Ok (truncate_trim_ascii_spec 20 NaN).
Proof.
  repeat split; try reflexivity; vm_compute; discriminate.
Qed.




(** *** The search date *)

(** C4: the code at the failing inputs.  For a search string of length 7
    or 10 the source evaluates [search.contains('-')], which raises
    [AttributeError]; the specification maps "2020-08" to "20200801" and
    "2020-08-15" to "20200815".  The forms without separator work. *)
Theorem expand_partial_search_date_separator_raises (now : pystr) :
  expand_partial_search_date now (lit "2020-08")
    = Raise (AttributeError "'str' object has no attribute 'contains'")
  /\ expand_partial_search_date now (lit "2020-08-15")
    = Raise (AttributeError "'str' object has no attribute 'contains'")
  /\ expand_partial_search_date_spec (lit "2020-08") = lit "20200801"
  /\ expand_partial_search_date_spec (lit "2020-08-15") = lit "20200815"
  /\ expand_partial_search_date now (lit "2020") = Ok (lit "20200101")
  /\ expand_partial_search_date now (lit "202008") = Ok (lit "20200801").
Proof. repeat split; reflexivity. Qed.

(** *** The columns of the built table *)

Lemma accessor_no_date s :
  forallb (fun v => negb (is_date v)) s = true -> str_accessor_ok s = true.
Proof.
  intros H. unfold str_accessor_ok.
  destruct (filter notna s) as [|x nn] eqn:E; [reflexivity|].
  assert (Hx : In x (filter notna s)) by (rewrite E; left; reflexivity).
  apply filter_In in Hx. destruct Hx as [Hx _].
  rewrite forallb_forall in H. specialize (H x Hx).
  simpl. apply negb_true_iff in H. rewrite H. reflexivity.
Qed.

Lemma accessor_after_method (f : value -> value) c :
  (forall v, is_date (f v) = false) -> str_accessor_ok (map f c) = true.
Proof.
  intros Hf. apply accessor_no_date. rewrite forallb_forall.
  intros x Hx. apply in_map_iff in Hx. destruct Hx as [v [<- _]].
  rewrite Hf. reflexivity.
Qed.

Lemma mapM_decode c :
  mapM str_decode (map str_encode c)
  = Ok (map (fun v => match v with
                      | Str s => Str (filter is_ascii s)
                      | _ => NaN
                      end) c).
Proof.
  induction c as [|v t IH]; simpl; [reflexivity|].
  rewrite IH. destruct v; simpl; try reflexivity.
  rewrite decode_after_encode. reflexivity.
Qed.

Lemma name_field_eq n c :
  name_field n c
  = if str_accessor_ok c then Ok (map (norm n) c) else Raise accessor_error.
Proof.
  unfold name_field, dot_str.
  destruct (str_accessor_ok c); [|reflexivity]. simpl.
  rewrite accessor_after_method by (intros []; reflexivity). simpl.
  rewrite accessor_after_method by (intros []; reflexivity). simpl.
  rewrite accessor_after_method by (intros []; reflexivity). simpl.
  rewrite mapM_decode. f_equal. rewrite !map_map.
  apply map_ext. intros [|s|b|y m d]; reflexivity.
Qed.

Lemma return_field_eq c :
  return_field c
  = if str_accessor_ok c
    then Ok (map (fun v => str_strip (str_slice_to 50 v)) c)
    else Raise accessor_error.
Proof.
  unfold return_field, dot_str.
  destruct (str_accessor_ok c); [|reflexivity]. simpl.
  rewrite accessor_after_method by (intros []; reflexivity). simpl.
  rewrite map_map. reflexivity.
Qed.

Lemma mapM_cvtdate s :
  mapM cvtdate s
  = if forallb is_date s then Ok (map fmt_date s)
    else Raise (NameError "name 'np' is not defined").
Proof.
  induction s as [|v t IH]; simpl; [reflexivity|].
  destruct v; simpl; try reflexivity.
  rewrite IH. destruct (forallb is_date t); reflexivity.
Qed.

Lemma mapM_strftime_lambda s :
  mapM strftime_lambda s
  = if forallb is_date s then Ok (map fmt_date s)
    else Raise (AttributeError "object has no attribute 'strftime'").
Proof.
  induction s as [|v t IH]; simpl; [reflexivity|].
  destruct v; simpl; try reflexivity.
  rewrite IH. destruct (forallb is_date t); reflexivity.
Qed.

Lemma required_present df :
  missing_required df = false ->
  has_column "FirstName" df = true /\ has_column "MiddleInitial" df = true
  /\ has_column "LastName" df = true /\ has_column "Suffix" df = true
  /\ has_column "DOB" df = true.
Proof.
  unfold missing_required, required_columns. simpl.
  rewrite !orb_false_iff, !negb_false_iff. tauto.
Qed.

(** The case analysis of a call, after the two guards: the name columns,
    then DOB, then SearchBeginDate, then ReturnRequestField. *)
Ltac open_request Hm :=
  let H1 := fresh in let H2 := fresh in let H3 := fresh in
  let H4 := fresh in let H5 := fresh in
  destruct (required_present _ Hm) as (H1 & H2 & H3 & H4 & H5);
  unfold name_columns, tail_columns, names_accepted, dates_convert in *;
  rewrite H2, H4;
  rewrite !name_field_eq, ?mapM_cvtdate, ?mapM_strftime_lambda,
    return_field_eq.

(** [create_request] returns exactly on the tables of [builds]. *)
Lemma create_request_builds to_dt self now df :
  is_Ok (create_request to_dt self now df) = builds to_dt df.
Proof.
  unfold create_request, builds. fold (missing_required df).
  destruct (empty df) eqn:He; [reflexivity|].
  destruct (missing_required df) eqn:Hm; [reflexivity|].
  open_request Hm. simpl.
  destruct (str_accessor_ok (col "FirstName" df)); simpl; [|reflexivity].
  destruct (str_accessor_ok (col "MiddleInitial" df)); simpl; [|reflexivity].
  destruct (str_accessor_ok (col "LastName" df)); simpl; [|reflexivity].
  destruct (str_accessor_ok (col "Suffix" df)); simpl; [|reflexivity].
  destruct (first_is_date (col "DOB" df)), (forallb is_date (col "DOB" df)),
    (to_dt (col "DOB" df)), (has_column "SearchBeginDate" df),
    (first_is_date (col "SearchBeginDate" df)),
    (forallb is_date (col "SearchBeginDate" df)),
    (has_column "ReturnRequestField" df),
    (str_accessor_ok (col "ReturnRequestField" df)); reflexivity.
Qed.

Lemma lookup_length df c s :
  wf_frame df -> lookup c (columns df) = Some s -> List.length s = nrows df.
Proof.
  unfold wf_frame. generalize (nrows df). intros n.
  induction (columns df) as [|[k x] rest IH]; simpl; [discriminate|].
  intros Hwf. apply Forall_cons_iff in Hwf. destruct Hwf as [Hx Hrest].
  simpl in Hx. destruct (String.eqb k c).
  - intros [= <-]. exact Hx.
  - auto.
Qed.

Lemma has_column_lookup c df :
  has_column c df = true -> exists s, lookup c (columns df) = Some s.
Proof.
  unfold has_column.
  induction (columns df) as [|[k x] rest IH]; simpl; [discriminate|].
  destruct (String.eqb k c); simpl; eauto.
Qed.

Lemma col_length df c :
  wf_frame df -> has_column c df = true -> List.length (col c df) = nrows df.
Proof.
  intros Hwf Hc. destruct (has_column_lookup _ _ Hc) as [s Hs].
  unfold col. rewrite Hs. eapply lookup_length; eauto.
Qed.

Lemma nth_seq_all (l : Series) :
  map (fun i => nth i l NaN) (seq 0 (List.length l)) = l.
Proof.
  induction l as [|v t IH]; simpl; [reflexivity|].
  f_equal. rewrite <- seq_shift, map_map. exact IH.
Qed.

Lemma filter_map_comm {A B} (f : A -> B) (p : B -> bool) l :
  map f (filter (fun x => p (f x)) l) = filter p (map f l).
Proof.
  induction l as [|a t IH]; simpl; [reflexivity|].
  destruct (p (f a)); simpl; rewrite IH; reflexivity.
Qed.

(** The FirstName fields of the selected rows are the non-null cells of
    the FirstName column, in order. *)
Lemma body_first_names n cols fn :
  List.length fn = n -> lookup "FirstName" cols = Some fn ->
  map first_name_of (loc_rows n cols (map notna fn) out_columns)
  = filter notna fn.
Proof.
  intros Hn Hl. unfold loc_rows. rewrite map_map.
  rewrite (map_ext _ (fun i => nth i fn NaN)).
  2:{ intros i. unfold first_name_of, row_at, out_columns. simpl.
      rewrite Hl. reflexivity. }
  rewrite (filter_ext _ (fun i => notna (nth i fn NaN))).
  2:{ intros i. change false with (notna NaN). apply map_nth. }
  rewrite (filter_map_comm (fun i => nth i fn NaN) notna).
  subst n. rewrite nth_seq_all. reflexivity.
Qed.

Lemma create_request_shape to_dt self now df :
  builds to_dt df = true ->
  exists s' cols,
    create_request to_dt self now df = Ok s'
    /\ lookup "FirstName" cols = Some (map (norm 20) (col "FirstName" df))
    /\ r s' = Some (loc_rows (nrows df) cols
                      (map notna (map (norm 20) (col "FirstName" df)))
                      out_columns)
    /\ h s' = Some (header self now)
    /\ t s' = Some (trailer (nrows df + 2)).
Proof.
  unfold builds, create_request. fold (missing_required df).
  rewrite !andb_true_iff, !negb_true_iff.
  intros [[[[[He Hm] Hn] Hd] Hs] Hr]. rewrite He, Hm.
  open_request Hm.
  unfold names_accepted in Hn. rewrite !andb_true_iff in Hn.
  destruct Hn as [[[-> ->] ->] ->]. simpl.
  destruct (first_is_date (col "DOB" df)); rewrite Hd; simpl;
  destruct (has_column "SearchBeginDate" df); simpl;
  try (destruct (first_is_date (col "SearchBeginDate" df));
       try rewrite Hs; simpl);
  destruct (has_column "ReturnRequestField" df); try rewrite Hr; simpl;
  (eexists; eexists; split; [reflexivity|]; simpl; repeat split;
   reflexivity).
Qed.




Lemma filter_notna_Forall (c : Series) :
  Forall (fun v => notna v = true) (filter notna c).
Proof. apply Forall_forall. intros v Hv. apply filter_In in Hv. tauto. Qed.

Lemma wf_ex_table first dob :
  List.length dob = List.length first -> wf_frame (ex_table first dob).
Proof.
  intros H. unfold wf_frame, ex_table. simpl.
  repeat constructor; simpl; rewrite ?repeat_length; auto.
Qed.

(** *** The trailer *)




(** *** The dropped rows *)

(** C2, as amended.  On a table that the builder accepts, the FirstName
    fields of the body rows are exactly the non-null normalized FirstName
    cells of the input, in order: every row whose FirstName normalizes to
    null is dropped, every other row (with an empty FirstName too) is
    kept, and no body row has a null FirstName. *)
Theorem body_rows_first_name_not_null (to_dt : Series -> bool)
  (self : NSCRequest) (now : pystr) (df : DataFrame) :
  wf_frame df -> builds to_dt df = true ->
  exists s' body,
    create_request to_dt self now df = Ok s' /\ r s' = Some body
    /\ map first_name_of body
       = filter notna (map (norm 20) (col "FirstName" df))
    /\ Forall (fun row => notna (first_name_of row) = true) body.
Proof.
  intros Hwf Hb.
  destruct (@create_request_shape to_dt self now df Hb)
    as (s' & cols & Hc & Hl & Hr & _ & _).
  assert (Hn : List.length (map (norm 20) (col "FirstName" df)) = nrows df).
  { rewrite length_map. apply col_length; auto.
    unfold builds in Hb. rewrite !andb_true_iff, !negb_true_iff in Hb.
    apply required_present. tauto. }
  exists s'. eexists. split; [exact Hc|]. split; [exact Hr|].
  pose proof (@body_first_names _ _ _ Hn Hl) as Hbody.
  split; [exact Hbody|].
  apply Forall_map with (f := first_name_of) (P := fun v => notna v = true).
  rewrite Hbody. apply filter_notna_Forall.
Qed.

Lemma body_rows_first_name_not_null_witness :
  wf_frame ex_null /\ builds to_datetime_strict ex_null = true
  /\ exists s' body,
       create_request to_datetime_strict ex_self ex_now ex_null = Ok s'
       /\ r s' = Some body
       /\ map first_name_of body
          = filter notna (map (norm 20) (col "FirstName" ex_null))
       /\ Forall (fun row => notna (first_name_of row) = true) body.
Proof.
  assert (Hwf : wf_frame ex_null) by (apply wf_ex_table; reflexivity).
  split; [exact Hwf|]. split; [reflexivity|].
  apply (@body_rows_first_name_not_null to_datetime_strict ex_self ex_now ex_null Hwf).
  reflexivity.
Defined.

(** C2, counterexample.  A row whose FirstName is three blanks normalizes
    to the empty string and is written to the body. *)
Lemma blank_first_name_is_emitted :
  truncate_trim_ascii 20 (Str (lit "   ")) = Ok (Str [])
  /\ exists s' row,
       create_request to_datetime_strict ex_self ex_now ex_blank = Ok s'
       /\ r s' = Some [row] /\ first_name_of row = Str [].
Proof.
  split; [reflexivity|].
  eexists; eexists. split; [vm_compute; reflexivity|].
  split; reflexivity.
Qed.

(** *** Failures *)






End RequestFacts.

(* ===================================================================== *)
(** ** Facts about the rows of the request                                *)
(* ===================================================================== *)

From Stdlib Require DecimalNat Sorted.

Unset Implicit Arguments.

Module RequestRowFacts.

Import Request PyFacts RequestFacts RequestRows.
Local Open Scope list_scope.

Lemma create_request_columns to_dt self now df :
  builds to_dt df = true ->
  create_request to_dt self now df
  = Ok {| fice := fice self; branch := branch self; name := name self;
          inquiryType := inquiryType self; search := search self;
          enrolledStudents := enrolledStudents self;
          r := Some (loc_rows (nrows df) (built_columns self df)
                       (map notna (map (norm 20) (col "FirstName" df)))
                       out_columns);
          h := Some (header self now);
          t := Some (trailer (nrows df + 2)) |}.
Proof.
  unfold builds, create_request. fold (missing_required df).
  rewrite !andb_true_iff, !negb_true_iff.
  intros [[[[[He Hm] Hn] Hd] Hs] Hr]. rewrite He, Hm.
  open_request Hm.
  unfold names_accepted in Hn. rewrite !andb_true_iff in Hn.
  destruct Hn as [[[-> ->] ->] ->]. simpl.
  unfold built_columns, ssn_column, search_column, return_column, date_column, trim50.
  destruct (first_is_date (col "DOB" df)); rewrite Hd; simpl;
  destruct (has_column "SearchBeginDate" df); simpl;
  try (destruct (first_is_date (col "SearchBeginDate" df));
       try rewrite Hs; simpl);
  destruct (has_column "ReturnRequestField" df); try rewrite Hr; simpl;
  reflexivity.
Qed.


Lemma nth_broadcast i n v : i < n -> nth i (broadcast n v) NaN = v.
Proof.
  unfold broadcast. revert i. induction n as [|n IH]; intros i Hi; [lia|].
  destruct i; simpl; [reflexivity|]. apply IH. lia.
Qed.

Lemma nth_norm k i (c : Series) : nth i (map (norm k) c) NaN = norm k (nth i c NaN).
Proof. change NaN with (norm k NaN) at 1. apply map_nth. Qed.

Lemma notna_norm k v : notna (norm k v) = is_str v.
Proof. destruct v; reflexivity. Qed.

Lemma built_body self df :
  loc_rows (nrows df) (built_columns self df)
           (map notna (map (norm 20) (col "FirstName" df))) out_columns
  = map (request_row self df) (kept_rows df).
Proof.
  unfold loc_rows, kept_rows.
  rewrite (filter_ext _ (fun i => is_str (nth i (col "FirstName" df) NaN))).
  2:{ intros i. change false with (notna NaN). rewrite map_nth, nth_norm.
      apply notna_norm. }
  apply map_ext_in. intros i Hi. apply filter_In in Hi. destruct Hi as [Hi _].
  apply in_seq in Hi. assert (Hlt : i < nrows df) by lia.
  unfold row_at, out_columns, built_columns, request_row. simpl.
  rewrite !nth_norm, !nth_broadcast by exact Hlt. reflexivity.
Qed.

Lemma create_request_body to_dt self now df :
  builds to_dt df = true ->
  exists s',
    create_request to_dt self now df = Ok s'
    /\ r s' = Some (map (request_row self df) (kept_rows df)).
Proof.
  intros Hb. eexists. split; [apply create_request_columns; exact Hb|].
  simpl. rewrite built_body. reflexivity.
Qed.

Lemma kept_lt df i : In i (kept_rows df) -> i < nrows df.
Proof.
  unfold kept_rows. intros H. apply filter_In in H. destruct H as [H _].
  apply in_seq in H. lia.
Qed.

(** X1.  On every table on which [create_request] returns, the body [r]
    is, row for row, [request_row] of the rows of the caller's table whose
    FirstName is text, in the caller's order: the twelve fields of a body
    row are read from one row of the input, and no row is added,
    reordered or merged. *)
Theorem request_body_rows (to_dt : Series -> bool) (self : NSCRequest)
  (now : pystr) (df : DataFrame) :
  builds to_dt df = true ->
  exists s',
    create_request to_dt self now df = Ok s'
    /\ r s' = Some (map (request_row self df) (kept_rows df)).
Proof.
  intros Hb. eexists. split; [apply create_request_columns; exact Hb|].
  simpl. rewrite built_body. reflexivity.
Qed.


Lemma norm_bound k v :
  match norm k v with
  | Str s => List.length s <= k /\ forallb is_ascii s = true
  | NaN => True
  | _ => False
  end.
Proof.
  destruct v as [|s|b|y m d]; simpl; auto. split.
  - etransitivity; [apply filter_length_le|].
    etransitivity; [apply strip_length|]. unfold slice_to.
    rewrite length_firstn. lia.
  - apply forallb_filter_same.
Qed.

Lemma norm_bounded k v : bounded_ascii k (norm k v) = true.
Proof.
  pose proof (norm_bound k v) as H. unfold bounded_ascii.
  destruct (norm k v); auto. destruct H as [H1 H2].
  rewrite H2, andb_true_r. apply Nat.leb_le. exact H1.
Qed.

(** X3.  In every body row FirstName and LastName hold at most 20
    characters, MiddleInitial at most 1 and Suffix at most 5, all of them
    ASCII; a cell that was not text is null. *)
Theorem name_fields_bounded (to_dt : Series -> bool) (self : NSCRequest)
  (now : pystr) (df : DataFrame) :
  builds to_dt df = true ->
  exists s' body,
    create_request to_dt self now df = Ok s' /\ r s' = Some body
    /\ Forall (fun row =>
         bounded_ascii 20 (nth 2 row NaN) = true
         /\ bounded_ascii 1 (nth 3 row NaN) = true
         /\ bounded_ascii 20 (nth 4 row NaN) = true
         /\ bounded_ascii 5 (nth 5 row NaN) = true) body.
Proof.
  intros Hb. destruct (create_request_body to_dt self now df Hb) as (s' & Hc & Hr).
  exists s'. eexists. split; [exact Hc|]. split; [exact Hr|].
  apply Forall_forall. intros row Hrow. apply in_map_iff in Hrow.
  destruct Hrow as [i [<- Hi]]. apply filter_In in Hi. destruct Hi as [_ Hi].
  unfold request_row. simpl. rewrite !norm_bounded. repeat split.
Qed.

(** X4.  The SSN field of every body row is the empty string unless the
    inquiry type is 'PA', [enrolledStudents] is [False] and the table has
    an SSN column; in that one case it is the caller's SSN cell, as it
    is. *)
Theorem ssn_only_when_allowed (to_dt : Series -> bool) (self : NSCRequest)
  (now : pystr) (df : DataFrame) :
  builds to_dt df = true ->
  exists s' body,
    create_request to_dt self now df = Ok s' /\ r s' = Some body
    /\ ((pystr_eqb (inquiryType self) (lit "PA") = false
         \/ enrolledStudents self <> Some false
         \/ has_column "SSN" df = false) ->
        Forall (fun row => nth 1 row NaN = Str []) body)
    /\ (ssn_allowed self df = true ->
        map (fun row => nth 1 row NaN) body
        = map (fun i => nth i (col "SSN" df) NaN) (kept_rows df)).
Proof.
  intros Hb. destruct (create_request_body to_dt self now df Hb) as (s' & Hc & Hr).
  exists s'. eexists. split; [exact Hc|]. split; [exact Hr|]. split.
  - intros Hno. assert (Ha : ssn_allowed self df = false).
    { unfold ssn_allowed. destruct Hno as [-> | [Hno | ->]].
      - reflexivity.
      - destruct (enrolledStudents self) as [[|]|]; try congruence;
          rewrite ?andb_false_r; reflexivity.
      - apply andb_false_r. }
    apply Forall_forall. intros row Hrow. apply in_map_iff in Hrow.
    destruct Hrow as [i [<- Hi]]. unfold request_row, ssn_column. simpl.
    rewrite Ha. apply nth_broadcast, kept_lt, Hi.
  - intros Ha. rewrite map_map. apply map_ext. intros i.
    unfold request_row, ssn_column. simpl. rewrite Ha. reflexivity.
Qed.

Lemma blstrip_length b : List.length (blstrip b) <= List.length b.
Proof.
  induction b as [|c t IH]; simpl; [lia|].
  destruct (is_bspace c); simpl; lia.
Qed.

Lemma trim50_bound v : trimmed50 (trim50 v) = true.
Proof.
  destruct v as [|s|b|y m d]; simpl; try reflexivity.
  - rewrite strip_trimmed, andb_true_r. apply Nat.leb_le.
    apply Nat.le_trans with (List.length (slice_to 50 s)); [apply strip_length|].
    unfold slice_to. rewrite length_firstn. lia.
  - apply Nat.leb_le. rewrite length_rev.
    apply Nat.le_trans with (List.length (rev (blstrip (firstn 50 b))));
      [apply blstrip_length|].
    rewrite length_rev.
    apply Nat.le_trans with (List.length (firstn 50 b)); [apply blstrip_length|].
    rewrite length_firstn. lia.
Qed.

(** X5.  ReturnRequestField of a body row is the caller's cell cut to 50
    characters and then stripped, hence at most 50 characters with no
    whitespace at either end (a cell that is neither text nor bytes stays
    null); it is the empty string when the table has no such column. *)
Theorem return_field_trimmed (to_dt : Series -> bool) (self : NSCRequest)
  (now : pystr) (df : DataFrame) :
  builds to_dt df = true ->
  exists s' body,
    create_request to_dt self now df = Ok s' /\ r s' = Some body
    /\ Forall (fun row => trimmed50 (nth 11 row NaN) = true) body
    /\ map (fun row => nth 11 row NaN) body
       = map (fun i => if has_column "ReturnRequestField" df
                       then trim50 (nth i (col "ReturnRequestField" df) NaN)
                       else Str [])
             (kept_rows df).
Proof.
  intros Hb. destruct (create_request_body to_dt self now df Hb) as (s' & Hc & Hr).
  exists s'. eexists. split; [exact Hc|]. split; [exact Hr|].
  assert (Hcell : forall i, In i (kept_rows df) ->
            nth 11 (request_row self df i) NaN
            = if has_column "ReturnRequestField" df
              then trim50 (nth i (col "ReturnRequestField" df) NaN)
              else Str []).
  { intros i Hi. unfold request_row, return_column. simpl.
    destruct (has_column "ReturnRequestField" df).
    - change NaN with (trim50 NaN) at 1. apply map_nth.
    - apply nth_broadcast, kept_lt, Hi. }
  split.
  - apply Forall_forall. intros row Hrow. apply in_map_iff in Hrow.
    destruct Hrow as [i [<- Hi]]. rewrite (Hcell i Hi).
    destruct (has_column "ReturnRequestField" df); [apply trim50_bound|reflexivity].
  - rewrite map_map. apply map_ext_in. exact Hcell.
Qed.

(** X6.  When the table has no SearchBeginDate column, every body row
    carries the [search] date of the object. *)
Theorem search_begin_date_default (to_dt : Series -> bool) (self : NSCRequest)
  (now : pystr) (df : DataFrame) :
  builds to_dt df = true ->
  has_column "SearchBeginDate" df = false ->
  exists s' body,
    create_request to_dt self now df = Ok s' /\ r s' = Some body
    /\ Forall (fun row => nth 7 row NaN = Str (search self)) body.
Proof.
  intros Hb Hno. destruct (create_request_body to_dt self now df Hb) as (s' & Hc & Hr).
  exists s'. eexists. split; [exact Hc|]. split; [exact Hr|].
  apply Forall_forall. intros row Hrow. apply in_map_iff in Hrow.
  destruct Hrow as [i [<- Hi]]. unfold request_row, search_column. simpl.
  rewrite Hno. apply nth_broadcast, kept_lt, Hi.
Qed.

(** X7.  The constructor followed by the builder.  An object made from a
    [config] dictionary without a [search] and without an
    [enrolledStudents] argument, whatever its inquiry type and file name,
    builds from a table without SearchBeginDate a body in which every row
    has the empty SSN, the day of the construction as search date, and the
    FICE and branch codes of the school. *)
Theorem default_object_request (to_dt : Series -> bool) (config : school)
  (filename inquiryType now now' : pystr) (df : DataFrame) :
  builds to_dt df = true ->
  has_column "SearchBeginDate" df = false ->
  exists self file s' body,
    init config filename inquiryType [] None now = Ok (self, file)
    /\ create_request to_dt self now' df = Ok s' /\ r s' = Some body
    /\ Forall (fun row =>
         nth 1 row NaN = Str [] /\ nth 7 row NaN = Str now
         /\ nth 9 row NaN = Str (school_fice config)
         /\ nth 10 row NaN = Str (school_branch config)) body.
Proof.
  intros Hb Hno. unfold init. simpl.
  eexists. eexists.
  destruct (create_request_body to_dt
              {| fice := school_fice config; branch := school_branch config;
                 name := school_name config;
                 inquiryType := if pystr_eqb inquiryType [] then lit "PA"
                                else inquiryType;
                 search := now; enrolledStudents := None;
                 r := None; h := None; t := None |} now' df Hb)
    as (s' & Hc & Hr).
  exists s'. eexists. split; [reflexivity|]. split; [exact Hc|].
  split; [exact Hr|].
  apply Forall_forall. intros row Hrow. apply in_map_iff in Hrow.
  destruct Hrow as [i [<- Hi]]. apply kept_lt in Hi.
  unfold request_row, ssn_column, search_column, ssn_allowed. simpl.
  rewrite Hno, andb_false_r. simpl. rewrite !nth_broadcast by exact Hi.
  repeat split.
Qed.

(** X8.  The search date of the constructor, in full.  A string of length
    7 or 10 raises [AttributeError], with or without a separator in it; the
    empty string gives today's date, four characters get "0101" appended,
    six get "01", and every other string is stored as it is.  No returned
    value has had a character removed. *)
Theorem expand_partial_search_date_cases (now search : pystr) :
  expand_partial_search_date now search
  = let n := List.length search in
    if (n =? 7) || (n =? 10) then Raise contains_error
    else Ok (if n =? 0 then now
             else if n =? 4 then search +++ lit "0101"
             else if n =? 6 then search +++ lit "01"
             else search).
Proof.
  unfold expand_partial_search_date, str_contains, contains_error.
  destruct search as [|c s]; [reflexivity|].
  unfold pystr_eqb. destruct (list_eq_dec N.eq_dec (c :: s) []) as [E|_];
    [discriminate|].
  cbv zeta.
  destruct (List.length (c :: s) =? 4) eqn:E4.
  { apply Nat.eqb_eq in E4. rewrite E4. reflexivity. }
  destruct (List.length (c :: s) =? 6) eqn:E6.
  { apply Nat.eqb_eq in E6. rewrite E6. reflexivity. }
  destruct (List.length (c :: s) =? 7) eqn:E7; [reflexivity|].
  destruct (List.length (c :: s) =? 10) eqn:E10; reflexivity.
Qed.


Lemma digits_of_uint u acc :
  digits_from acc (lit (NilEmpty.string_of_uint u)) = Nat.of_uint_acc u acc.
Proof.
  revert acc. induction u; intros acc; simpl; [reflexivity| ..];
    unfold digits_from in *; unfold lit in *; simpl;
    rewrite IHu, Nat.tail_mul_spec; f_equal; cbn; lia.
Qed.

Lemma digits_all u : forallb is_digit (lit (NilEmpty.string_of_uint u)) = true.
Proof. induction u; simpl; [reflexivity| ..]; exact IHu. Qed.

Lemma digits_length u :
  List.length (lit (NilEmpty.string_of_uint u)) = Decimal.nb_digits u.
Proof.
  induction u; simpl; [reflexivity| ..]; unfold lit in *; simpl; f_equal; exact IHu.
Qed.

Lemma of_uint_acc_lower u acc :
  acc * 10 ^ Decimal.nb_digits u <= Nat.of_uint_acc u acc.
Proof.
  revert acc. induction u; intros acc; simpl Nat.of_uint_acc; simpl Decimal.nb_digits;
    [rewrite Nat.pow_0_r; lia| ..];
    rewrite Nat.pow_succ_r', Nat.tail_mul_spec;
    (eapply Nat.le_trans; [|apply IHu]); nia.
Qed.

Lemma nzhead_shorter u : Decimal.nb_digits (Decimal.nzhead u) <= Decimal.nb_digits u.
Proof. induction u; simpl; lia. Qed.

(** The digits of [str(n)]. *)
Lemma to_uint_digits n k :
  n < 10 ^ S k -> Decimal.nb_digits (Nat.to_uint n) <= S k.
Proof.
  intros Hn. pose proof (DecimalNat.Unsigned.of_to n) as Hof.
  pose proof (DecimalNat.Unsigned.to_of (Nat.to_uint n)) as Hnorm. rewrite Hof in Hnorm.
  set (u := Nat.to_uint n) in *.
  destruct (le_gt_dec (Decimal.nb_digits u) (S k)) as [Hle|Hgt]; [exact Hle|].
  exfalso.
  assert (Hpow : 10 ^ S k <= 10 ^ (Decimal.nb_digits u - 1))
    by (apply Nat.pow_le_mono_r; lia).
  assert (Hlow : 10 ^ (Decimal.nb_digits u - 1) <= n); [|lia].
  rewrite <- Hof. unfold Nat.of_uint.
  destruct u as [|u'|u'|u'|u'|u'|u'|u'|u'|u'|u']; simpl Decimal.nb_digits in *;
    try replace (S (Decimal.nb_digits u') - 1) with (Decimal.nb_digits u') by lia;
    simpl Nat.of_uint_acc;
    try (eapply Nat.le_trans; [|apply of_uint_acc_lower];
         rewrite Nat.tail_mul_spec; generalize (10 ^ Decimal.nb_digits u'); lia).
  - simpl in Hgt. lia.
  - exfalso. unfold Decimal.unorm in Hnorm. simpl Decimal.nzhead in Hnorm.
    pose proof (nzhead_shorter u') as Hs.
    destruct (Decimal.nzhead u') eqn:E;
      apply (f_equal Decimal.nb_digits) in Hnorm; simpl in Hnorm, Hgt, Hs; lia.
Qed.

Lemma str_of_nat_digits n k :
  n < 10 ^ S k ->
  let s := zfill (S k) (str_of_nat n) in
  List.length s = S k /\ forallb is_digit s = true /\ digits_value s = n.
Proof.
  intros Hn. pose proof (to_uint_digits n k Hn) as Hd.
  pose proof (DecimalNat.Unsigned.of_to n) as Hof. unfold Nat.of_uint in Hof.
  unfold str_of_nat. set (u := Nat.to_uint n) in *.
  assert (Hs : exists t, lit (NilZero.string_of_uint u) = lit (NilEmpty.string_of_uint t)
                         /\ Decimal.nb_digits t <= S k /\ Nat.of_uint_acc t 0 = n).
  { destruct u; try (eexists; split; [reflexivity|split; assumption]).
    exists (Decimal.D0 Decimal.Nil). simpl in *. repeat split; [lia|exact Hof]. }
  destruct Hs as (t & -> & Ht & Hv). cbv zeta. unfold zfill.
  rewrite digits_length. repeat split.
  - rewrite length_app, repeat_length, digits_length. lia.
  - rewrite forallb_app, digits_all, andb_true_r.
    generalize (S k - Decimal.nb_digits t). intros j. induction j; simpl; auto.
  - unfold digits_value. rewrite fold_left_app.
    replace (fold_left _ (repeat 48%N (S k - Decimal.nb_digits t)) 0) with 0.
    + rewrite <- Hv. apply digits_of_uint.
    + generalize (S k - Decimal.nb_digits t). intros j. induction j; simpl; auto.
Qed.

Lemma firstn_exact {A} (a b : list A) n : List.length a = n -> firstn n (a ++ b) = a.
Proof. intros <-. rewrite firstn_app, Nat.sub_diag, firstn_all. simpl. apply List.app_nil_r. Qed.

Lemma skipn_exact {A} (a b : list A) n : List.length a = n -> skipn n (a ++ b) = b.
Proof. intros <-. rewrite skipn_app, Nat.sub_diag, skipn_all. reflexivity. Qed.

(** X10.  What [cvtdate] writes for a date reads back as that date: for a
    four-digit year the text has eight characters, all digits, of which
    the first four are the year, the next two the month and the last two
    the day. *)
Theorem strftime_Ymd_reads_back (y m d : nat) :
  1000 <= y -> y < 10 ^ 4 -> m < 10 ^ 2 -> d < 10 ^ 2 ->
  let s := strftime_Ymd y m d in
  List.length s = 8 /\ forallb is_digit s = true
  /\ digits_value (firstn 4 s) = y
  /\ digits_value (firstn 2 (skipn 4 s)) = m
  /\ digits_value (skipn 6 s) = d.
Proof.
  intros _ Hy Hm Hd.
  destruct (str_of_nat_digits y 3 Hy) as (Y1 & Y2 & Y3).
  destruct (str_of_nat_digits m 1 Hm) as (M1 & M2 & M3).
  destruct (str_of_nat_digits d 1 Hd) as (D1 & D2 & D3).
  unfold strftime_Ymd.
  set (a := zfill 4 (str_of_nat y)) in *. set (b := zfill 2 (str_of_nat m)) in *.
  set (c := zfill 2 (str_of_nat d)) in *. cbv zeta.
  repeat split.
  - rewrite !length_app. lia.
  - rewrite !forallb_app, Y2, M2, D2. reflexivity.
  - rewrite (firstn_exact a (b ++ c) _ Y1). exact Y3.
  - rewrite (skipn_exact a (b ++ c) _ Y1), (firstn_exact b c _ M1). exact M3.
  - rewrite app_assoc. rewrite (skipn_exact (a ++ b) c 6); [exact D3|].
    rewrite length_app; lia.
Qed.

(** *** The theorems on the example tables *)

Lemma request_body_rows_witness :
  builds to_datetime_strict ex_full = true
  /\ exists s',
       create_request to_datetime_strict ex_self_pa ex_now ex_full = Ok s'
       /\ r s' = Some (map (request_row ex_self_pa ex_full) (kept_rows ex_full)).
Proof.
  split; [reflexivity|].
  apply (request_body_rows to_datetime_strict ex_self_pa ex_now ex_full).
  reflexivity.
Defined.


Lemma name_fields_bounded_witness :
  builds to_datetime_strict ex_full = true
  /\ exists s' body,
       create_request to_datetime_strict ex_self_pa ex_now ex_full = Ok s'
       /\ r s' = Some body
       /\ Forall (fun row =>
            bounded_ascii 20 (nth 2 row NaN) = true
            /\ bounded_ascii 1 (nth 3 row NaN) = true
            /\ bounded_ascii 20 (nth 4 row NaN) = true
            /\ bounded_ascii 5 (nth 5 row NaN) = true) body.
Proof.
  split; [reflexivity|].
  apply (name_fields_bounded to_datetime_strict ex_self_pa ex_now ex_full).
  reflexivity.
Defined.

Lemma strftime_Ymd_reads_back_witness :
  1000 <= 2000 /\ 2000 < 10 ^ 4 /\ 1 < 10 ^ 2 /\ 31 < 10 ^ 2
  /\ List.length (strftime_Ymd 2000 1 31) = 8
  /\ forallb is_digit (strftime_Ymd 2000 1 31) = true
  /\ digits_value (firstn 4 (strftime_Ymd 2000 1 31)) = 2000
  /\ digits_value (firstn 2 (skipn 4 (strftime_Ymd 2000 1 31))) = 1
  /\ digits_value (skipn 6 (strftime_Ymd 2000 1 31)) = 31.
Proof.
  assert (H1 : 1000 <= 2000) by (apply Nat.leb_le; vm_compute; reflexivity).
  assert (H2 : 2000 < 10 ^ 4) by (apply Nat.ltb_lt; vm_compute; reflexivity).
  assert (H3 : 1 < 10 ^ 2) by (apply Nat.ltb_lt; vm_compute; reflexivity).
  assert (H4 : 31 < 10 ^ 2) by (apply Nat.ltb_lt; vm_compute; reflexivity).
  split; [exact H1|]. split; [exact H2|]. split; [exact H3|]. split; [exact H4|].
  exact (strftime_Ymd_reads_back 2000 1 31 H1 H2 H3 H4).
Defined.

Lemma ssn_only_when_allowed_witness :
  builds to_datetime_strict ex_full = true
  /\ exists s' body,
       create_request to_datetime_strict ex_self ex_now ex_full = Ok s'
       /\ r s' = Some body
       /\ ((pystr_eqb (inquiryType ex_self) (lit "PA") = false
            \/ enrolledStudents ex_self <> Some false
            \/ has_column "SSN" ex_full = false) ->
           Forall (fun row => nth 1 row NaN = Str []) body)
       /\ (ssn_allowed ex_self ex_full = true ->
           map (fun row => nth 1 row NaN) body
           = map (fun i => nth i (col "SSN" ex_full) NaN) (kept_rows ex_full)).
Proof.
  split; [reflexivity|].
  apply (ssn_only_when_allowed to_datetime_strict ex_self ex_now ex_full).
  reflexivity.
Defined.

Lemma return_field_trimmed_witness :
  builds to_datetime_strict ex_full = true
  /\ exists s' body,
       create_request to_datetime_strict ex_self ex_now ex_full = Ok s'
       /\ r s' = Some body
       /\ Forall (fun row => trimmed50 (nth 11 row NaN) = true) body
       /\ map (fun row => nth 11 row NaN) body
          = map (fun i => if has_column "ReturnRequestField" ex_full
                          then trim50 (nth i (col "ReturnRequestField" ex_full) NaN)
                          else Str [])
                (kept_rows ex_full).
Proof.
  split; [reflexivity|].
  apply (return_field_trimmed to_datetime_strict ex_self ex_now ex_full).
  reflexivity.
Defined.

Lemma search_begin_date_default_witness :
  builds to_datetime_strict ex_null = true
  /\ has_column "SearchBeginDate" ex_null = false
  /\ exists s' body,
       create_request to_datetime_strict ex_self ex_now ex_null = Ok s'
       /\ r s' = Some body
       /\ Forall (fun row => nth 7 row NaN = Str (search ex_self)) body.
Proof.
  split; [reflexivity|]. split; [reflexivity|].
  apply (search_begin_date_default to_datetime_strict ex_self ex_now ex_null);
    reflexivity.
Defined.

Lemma default_object_request_witness :
  builds to_datetime_strict ex_null = true
  /\ has_column "SearchBeginDate" ex_null = false
  /\ exists self file s' body,
       init (mkSchool (lit "999999") (lit "00") (lit "MySchool")) []
            (lit "SE") [] None ex_now = Ok (self, file)
       /\ create_request to_datetime_strict self ex_now ex_null = Ok s'
       /\ r s' = Some body
       /\ Forall (fun row =>
            nth 1 row NaN = Str [] /\ nth 7 row NaN = Str ex_now
            /\ nth 9 row NaN = Str (lit "999999")
            /\ nth 10 row NaN = Str (lit "00")) body.
Proof.
  split; [reflexivity|]. split; [reflexivity|].
  apply (default_object_request to_datetime_strict
           (mkSchool (lit "999999") (lit "00") (lit "MySchool")) []
           (lit "SE") ex_now ex_now ex_null); reflexivity.
Defined.

End RequestRowFacts.

(* ===================================================================== *)
(** ** Facts about the return-file converter                              *)
(* ===================================================================== *)

Module ReturnFacts.

Import Return ReturnRows.
Local Open Scope list_scope.

(** *** Rows and columns *)
Lemma get_set c k v r : get c (set k v r) = if String.eqb k c then v else get c r.
Proof.
  induction r as [|[k' old] rest IH]; simpl.
  - destruct (String.eqb k c); reflexivity.
  - destruct (String.eqb k' k) eqn:E; simpl.
    + apply String.eqb_eq in E. subst k'. destruct (String.eqb k c); reflexivity.
    + rewrite IH. destruct (String.eqb k' c) eqn:E'; [|reflexivity].
      apply String.eqb_eq in E'. subst k'. rewrite String.eqb_sym, E. reflexivity.
Qed.

Lemma get_loc c cs r :
  get c (map (fun c' => (c', get c' r)) cs) = if existsb (String.eqb c) cs then get c r else NaN.
Proof.
  induction cs as [|c' rest IH]; simpl; [reflexivity|].
  rewrite (String.eqb_sym c c'). destruct (String.eqb c' c) eqn:E; simpl.
  - apply String.eqb_eq in E. subst. reflexivity.
  - exact IH.
Qed.

Lemma get_drop c cs r :
  get c (filter (fun kv : string * value => negb (existsb (String.eqb (fst kv)) cs)) r)
  = if existsb (String.eqb c) cs then NaN else get c r.
Proof.
  induction r as [|[k v] rest IH]; simpl.
  - destruct (existsb _ cs); reflexivity.
  - destruct (existsb (String.eqb k) cs) eqn:Ek; simpl.
    + rewrite IH. destruct (String.eqb k c) eqn:E; [|reflexivity].
      apply String.eqb_eq in E. subst. rewrite Ek. reflexivity.
    + destruct (String.eqb k c) eqn:E.
      * apply String.eqb_eq in E. subst. rewrite Ek. reflexivity.
      * exact IH.
Qed.

Lemma assign_map c (F : row -> value) f :
  assign c (map F f) f = map (fun r => set c (F r) r) f.
Proof. unfold assign. induction f as [|r t IH]; simpl; [reflexivity|]. f_equal. exact IH. Qed.

Lemma fillna_col v c f : fillna v (col c f) = map (fun r => if isna (get c r) then v else get c r) f.
Proof. unfold fillna, col. rewrite map_map. reflexivity. Qed.

Lemma value_eqb_eq a b : value_eqb a b = true <-> a = b.
Proof.
  destruct a, b; simpl; split; try discriminate; try reflexivity; intros H.
  - unfold pystr_eqb in H. destruct (list_eq_dec N.eq_dec s s0); [subst; reflexivity|discriminate].
  - injection H as ->. unfold pystr_eqb. destruct (list_eq_dec N.eq_dec s0 s0); congruence.
  - apply Z.eqb_eq in H. subst. reflexivity.
  - injection H as ->. apply Z.eqb_refl.
  - apply Z.eqb_eq in H. subst. reflexivity.
  - injection H as ->. apply Z.eqb_refl.
Qed.

Lemma key_eqb_eq a b : key_eqb a b = true <-> a = b.
Proof.
  revert b. induction a as [|x a IH]; intros [|y b]; simpl; split; try discriminate; try reflexivity.
  - rewrite andb_true_iff, value_eqb_eq, IH. intros [-> ->]. reflexivity.
  - intros [= -> ->]. rewrite andb_true_iff, value_eqb_eq, IH. auto.
Qed.

Lemma in_group_iff keys k r : in_group keys k r = true <-> group_key keys r = Some k.
Proof.
  unfold in_group. destruct (group_key keys r) as [k'|].
  - rewrite key_eqb_eq. split; congruence.
  - split; discriminate.
Qed.

Lemma group_key_same keys a b : same_on keys a b -> group_key keys a = group_key keys b.
Proof.
  intros H. unfold group_key.
  rewrite (map_ext_in (fun c => get c a) (fun c => get c b)); auto.
Qed.

Lemma in_group_same keys k a b : same_on keys a b -> in_group keys k a = in_group keys k b.
Proof. intros H. unfold in_group. rewrite (group_key_same _ _ _ H). reflexivity. Qed.

(** *** Series over a frame of the form [map F L] *)
Lemma assign_map2 {A} c (g : A -> value) (F : A -> row) (L : list A) :
  assign c (map g L) (map F L) = map (fun a => set c (g a) (F a)) L.
Proof. unfold assign. induction L as [|a t IH]; simpl; [reflexivity|]. f_equal. exact IH. Qed.

Lemma col_map {A} c (F : A -> row) (L : list A) :
  col c (map F L) = map (fun a => get c (F a)) L.
Proof. unfold col. apply map_map. Qed.

Lemma fillna_map {A} v (g : A -> value) (L : list A) :
  fillna v (map g L) = map (fun a => if isna (g a) then v else g a) L.
Proof. unfold fillna. apply map_map. Qed.

Lemma map2_map {A} (f : value -> value -> value) (g1 g2 : A -> value) (L : list A) :
  map2 f (map g1 L) (map g2 L) = map (fun a => f (g1 a) (g2 a)) L.
Proof. induction L as [|a t IH]; simpl; [reflexivity|]. f_equal. exact IH. Qed.

Lemma filter_of_map {A B} (q : B -> bool) (F : A -> B) (L : list A) :
  filter q (map F L) = map F (filter (fun a => q (F a)) L).
Proof.
  induction L as [|a t IH]; simpl; [reflexivity|].
  destruct (q (F a)); simpl; rewrite IH; reflexivity.
Qed.

Section Steps.
Context {A : Type} (base : A -> row) (keys : list string).

Lemma group_col_same (F : A -> row) (L : list A) k src :
  (forall a, In a L -> same_on keys (F a) (base a)) ->
  (forall a, In a L -> get src (F a) = get src (base a)) ->
  col src (filter (in_group keys k) (map F L))
  = col src (filter (in_group keys k) (map base L)).
Proof.
  induction L as [|a t IH]; intros Hk Hs; simpl; [reflexivity|].
  rewrite (in_group_same keys k _ _ (Hk a (or_introl eq_refl))).
  destruct (in_group keys k (base a)); simpl.
  - rewrite (Hs a (or_introl eq_refl)). f_equal. apply IH; intros; [apply Hk|apply Hs]; right; assumption.
  - apply IH; intros; [apply Hk|apply Hs]; right; assumption.
Qed.

Lemma transform_series (F : A -> row) (L : list A) agg src :
  (forall a, In a L -> same_on keys (F a) (base a)) ->
  (forall a, In a L -> get src (F a) = get src (base a)) ->
  groupby_transform keys agg src (map F L)
  = map (fun a => group_agg keys agg src (map base L) (base a)) L.
Proof.
  intros Hk Hs. unfold groupby_transform. rewrite map_map.
  apply map_ext_in. intros a Ha. unfold group_agg.
  rewrite (group_key_same keys _ _ (Hk a Ha)).
  destruct (group_key keys (base a)) as [k|]; [|reflexivity].
  f_equal. apply group_col_same; assumption.
Qed.

Lemma cumcount_same (F : A -> row) (P L : list A) :
  (forall a, In a (P ++ L) -> same_on keys (F a) (base a)) ->
  cumcount_from keys (map F P) (map F L) = cumcount_from keys (map base P) (map base L).
Proof.
  revert P. induction L as [|a t IH]; intros P Hk; simpl; [reflexivity|].
  assert (Ha : same_on keys (F a) (base a)) by (apply Hk, in_or_app; right; left; reflexivity).
  rewrite (group_key_same keys _ _ Ha). f_equal.
  - destruct (group_key keys (base a)) as [k|]; [|reflexivity].
    do 2 f_equal. clear -Hk.
    induction P as [|p P IH]; simpl; [reflexivity|].
    rewrite (in_group_same keys k _ _ (Hk p (or_introl eq_refl))).
    destruct (in_group keys k (base p)); simpl; rewrite IH; auto;
      intros; apply Hk; right; assumption.
  - apply (IH (a :: P)). intros b Hb. apply Hk.
    destruct Hb as [<-|Hb]; [apply in_or_app; right; left; reflexivity|].
    apply in_app_or in Hb. apply in_or_app. destruct Hb; [left|right; right]; assumption.
Qed.
End Steps.

Lemma cumcount_map {A} (base : A -> row) keys (F : A -> row) (L : list A) :
  (forall a, In a L -> same_on keys (F a) (base a)) ->
  groupby_cumcount keys (map F L) = groupby_cumcount keys (map base L).
Proof.
  intros H. unfold groupby_cumcount.
  apply (cumcount_same base keys F [] L). exact H.
Qed.

(** The first row of every group. *)
Lemma first_of_group keys k prev f :
  filter (fun p : row * value => in_group keys k (fst p) && py_eq (snd p) (Num 1))
         (combine f (plus_one (cumcount_from keys prev f)))
  = if existsb (in_group keys k) prev then []
    else match find (in_group keys k) f with
         | Some g => [(g, Num 1)]
         | None => []
         end.
Proof.
  revert prev. induction f as [|r t IH]; intros prev; simpl.
  - destruct (existsb _ prev); reflexivity.
  - rewrite IH. simpl. destruct (in_group keys k r) eqn:Hr; simpl.
    + apply in_group_iff in Hr. rewrite Hr. simpl.
      destruct (existsb (in_group keys k) prev) eqn:Hp.
      * replace (py_eq _ _) with false; [reflexivity|].
        unfold py_eq. simpl. symmetry. apply Z.eqb_neq.
        apply existsb_exists in Hp. destruct Hp as [p [Hp1 Hp2]].
        assert (In p (filter (in_group keys k) prev)) by (apply filter_In; auto).
        destruct (filter (in_group keys k) prev); [contradiction|]. simpl. lia.
      * replace (filter (in_group keys k) prev) with (@nil row); [reflexivity|].
        symmetry. clear -Hp. induction prev as [|p prev IH]; [reflexivity|].
        simpl in *. apply orb_false_iff in Hp. destruct Hp as [-> Hp]. auto.
    + destruct (existsb (in_group keys k) prev); reflexivity.
Qed.

Lemma drop_map cs f : drop cs f = map (drop_row cs) f.
Proof. reflexivity. Qed.

Ltac same_cols :=
  let c := fresh "c" in let Hc := fresh "Hc" in
  intros ? ? c Hc; simpl in Hc;
  repeat (destruct Hc as [<-|Hc]; [rewrite ?get_set; reflexivity|]);
  contradiction.

Ltac same_col := intros ? ?; rewrite ?get_set; reflexivity.

Lemma periods_structure_gen (L : list (row * value)) :
  plus_one (groupby_cumcount period_keys (map fst L)) = map snd L ->
  enrollment_periods (map fst L)
  = map (fun p => drop_row ["RowNumber"; "SemesterIndex"]
                    (summary (map fst L) (fst p) (snd p)))
        (filter (fun p => py_eq (snd p) (Num 1)) L).
Proof.
  intros Hidx. unfold enrollment_periods. cbv zeta.
  rewrite (transform_series fst period_keys fst L) by (same_cols || same_col).
  rewrite assign_map2.
  rewrite (cumcount_map fst period_keys _ L) by same_cols.
  rewrite Hidx, assign_map2.
  rewrite (transform_series fst period_keys _ L) by (same_cols || same_col).
  rewrite assign_map2.
  rewrite (transform_series fst period_keys _ L) by (same_cols || same_col).
  rewrite assign_map2.
  rewrite (transform_series fst period_keys _ L) by (same_cols || same_col).
  rewrite assign_map2.
  rewrite (transform_series fst period_keys _ L) by (same_cols || same_col).
  rewrite assign_map2.
  rewrite (transform_series fst period_keys _ L) by (same_cols || same_col).
  rewrite assign_map2.
  rewrite (transform_series fst period_keys _ L) by (same_cols || same_col).
  rewrite assign_map2.
  rewrite (transform_series fst period_keys _ L) by (same_cols || same_col).
  rewrite assign_map2.
  unfold where_eq. rewrite filter_of_map, drop_map, map_map.
  unfold summary. f_equal. apply filter_ext. intros p.
  rewrite !get_set. reflexivity.
Qed.

Lemma cumcount_length keys prev f : List.length (cumcount_from keys prev f) = List.length f.
Proof. revert prev. induction f as [|r t IH]; intros prev; simpl; [reflexivity|]. rewrite IH. reflexivity. Qed.

Lemma map_fst_combine {A B} (l : list A) (l' : list B) :
  List.length l = List.length l' -> map fst (combine l l') = l.
Proof.
  revert l'. induction l as [|a t IH]; intros [|b t']; simpl; try discriminate; [reflexivity|].
  intros [= H]. rewrite IH; auto.
Qed.

Lemma map_snd_combine {A B} (l : list A) (l' : list B) :
  List.length l = List.length l' -> map snd (combine l l') = l'.
Proof.
  revert l'. induction l as [|a t IH]; intros [|b t']; simpl; try discriminate; [reflexivity|].
  intros [= H]. rewrite IH; auto.
Qed.

Lemma indexed_fst W : map fst (indexed W) = W.
Proof.
  apply map_fst_combine. unfold plus_one, groupby_cumcount.
  rewrite length_map, cumcount_length. reflexivity.
Qed.

Lemma indexed_snd W : map snd (indexed W) = plus_one (groupby_cumcount period_keys W).
Proof.
  apply map_snd_combine. unfold plus_one, groupby_cumcount.
  rewrite length_map, cumcount_length. reflexivity.
Qed.

Lemma periods_structure W :
  enrollment_periods W
  = map (fun p => drop_row ["RowNumber"; "SemesterIndex"] (summary W (fst p) (snd p)))
        (filter (fun p => py_eq (snd p) (Num 1)) (indexed W)).
Proof.
  pose proof (periods_structure_gen (indexed W)) as H.
  rewrite indexed_fst in H. apply H. symmetry. apply indexed_snd.
Qed.

Lemma period_row_keys W r idx :
  same_on period_keys (drop_row ["RowNumber"; "SemesterIndex"] (summary W r idx)) r.
Proof.
  intros c Hc. unfold drop_row. rewrite get_drop. unfold summary.
  simpl in Hc.
  repeat (destruct Hc as [<-|Hc]; [rewrite ?get_set; reflexivity|]).
  contradiction.
Qed.

Lemma filter_filter {A} (p q : A -> bool) l :
  filter p (filter q l) = filter (fun a => p a && q a) l.
Proof.
  induction l as [|a t IH]; simpl; [reflexivity|].
  destruct (q a) eqn:Eq, (p a) eqn:Ep; simpl; rewrite ?Ep, ?IH; reflexivity.
Qed.

Lemma py_eq_Num1 v : py_eq v (Num 1) = true -> v = Num 1.
Proof.
  unfold py_eq. destruct v; simpl; try discriminate.
  intros H. apply Z.eqb_eq in H. subst. reflexivity.
Qed.

(** Every group of the working table leaves one row, made from its first
    row. *)
Lemma periods_of_group W k :
  filter (in_group period_keys k) (enrollment_periods W)
  = match find (in_group period_keys k) W with
    | Some g => [period_row W g]
    | None => []
    end.
Proof.
  rewrite periods_structure, filter_of_map, filter_filter.
  rewrite (filter_ext _ (fun p : row * value =>
             in_group period_keys k (fst p) && py_eq (snd p) (Num 1))).
  2:{ intros p. f_equal. apply in_group_same, period_row_keys. }
  unfold indexed, groupby_cumcount. rewrite first_of_group. simpl.
  destruct (find (in_group period_keys k) W); reflexivity.
Qed.

(** A row of the periods comes from a row of the working table that has
    a key. *)
Lemma periods_In W p :
  In p (enrollment_periods W) ->
  exists r, In r W /\ group_key period_keys r <> None /\ p = period_row W r.
Proof.
  rewrite periods_structure. intros H. apply in_map_iff in H.
  destruct H as [[r idx] [<- H]]. apply filter_In in H. destruct H as [Hin H1].
  simpl in *. apply py_eq_Num1 in H1. subst idx.
  exists r. split; [|split; [|reflexivity]].
  - rewrite <- (indexed_fst W). apply in_map_iff. exists (r, Num 1). auto.
  - unfold indexed, groupby_cumcount in Hin. revert Hin. generalize (@nil row).
    induction W as [|w t IH]; intros prev; simpl; [contradiction|].
    intros [Hw|Hw].
    + injection Hw as <- Hw. destruct (group_key period_keys w); [discriminate|discriminate].
    + eapply IH; eauto.
Qed.

Section Parsed.
Variable strptime : pystr -> option Z.

Lemma dt_typed v : is_date_or_nan (dt strptime v) = true.
Proof. destruct v as [|s|z|d]; simpl; try reflexivity. destruct (strptime s); reflexivity. Qed.

Lemma to_datetime_Ok s ds :
  to_datetime strptime s = Ok ds -> ds = map (dt strptime) s.
Proof.
  revert ds. induction s as [|v t IH]; simpl; intros ds H.
  - injection H as <-. reflexivity.
  - destruct (to_datetime_cell strptime v) as [d|] eqn:Hd; simpl in H; [|discriminate].
    destruct (to_datetime strptime t) as [ds'|]; simpl in H; [|discriminate].
    injection H as <-. rewrite <- (IH ds' eq_refl). f_equal.
    destruct v as [|x|z|d']; simpl in *; try congruence.
    destruct (strptime x); congruence.
Qed.

Lemma found_structure students found :
  found_records strptime students = Ok found ->
  found = map (found_row strptime) (where_eq "Record Found Y/N" (Str (lit "Y")) students).
Proof.
  unfold found_records. cbv zeta.
  set (X := where_eq "Record Found Y/N" (Str (lit "Y")) students).
  destruct (to_datetime strptime (col "Enrollment Begin" X)) as [b|] eqn:Hb; simpl; [|discriminate].
  apply to_datetime_Ok in Hb. unfold col in Hb. rewrite map_map in Hb. subst b.
  rewrite !assign_map, !col_map.
  destruct (to_datetime strptime _) as [e|] eqn:He; simpl; [|discriminate].
  apply to_datetime_Ok in He. rewrite map_map in He. subst e.
  rewrite !assign_map2, !col_map, !map2_map, !assign_map2, !col_map, !fillna_map,
    !assign_map2, !col_map, !fillna_map, !assign_map2.
  intros [= <-]. apply map_ext. intros r. unfold found_row, fill_text.
  rewrite !get_set. reflexivity.
Qed.

End Parsed.

(** *** Sorting *)
Lemma insert_sorted_perm keys x f : Permutation (insert_sorted keys x f) (x :: f).
Proof.
  induction f as [|y t IH]; simpl; [reflexivity|].
  destruct (keys_leb keys x y); [reflexivity|].
  rewrite IH. apply perm_swap.
Qed.

Lemma sort_values_perm keys f : Permutation (sort_values keys f) f.
Proof.
  induction f as [|x t IH]; simpl; [reflexivity|].
  rewrite insert_sorted_perm. constructor. exact IH.
Qed.

Lemma sort_values_In keys f x : In x (sort_values keys f) <-> In x f.
Proof.
  split; apply Permutation_in; [|symmetry]; apply sort_values_perm.
Qed.

(** A stable sort keeps the rows that share one sort key in their order. *)
Lemma insert_sorted_filter keys (q : row -> bool) x f :
  (forall a b, q a = true -> q b = true -> keys_leb keys a b = true) ->
  filter q (insert_sorted keys x f) = filter q (x :: f).
Proof.
  intros Hq. induction f as [|y t IH]; [reflexivity|].
  simpl insert_sorted. destruct (keys_leb keys x y) eqn:E; [reflexivity|].
  simpl. simpl in IH. rewrite IH.
  destruct (q x) eqn:Hx, (q y) eqn:Hy; try reflexivity.
  rewrite (Hq x y Hx Hy) in E. discriminate.
Qed.

Lemma sort_values_filter keys (q : row -> bool) f :
  (forall a b, q a = true -> q b = true -> keys_leb keys a b = true) ->
  filter q (sort_values keys f) = filter q f.
Proof.
  intros Hq. induction f as [|x t IH]; [reflexivity|].
  simpl sort_values. rewrite insert_sorted_filter by exact Hq.
  simpl. rewrite IH. reflexivity.
Qed.

Lemma value_eqb_refl v : value_eqb v v = true.
Proof. apply value_eqb_eq. reflexivity. Qed.

Lemma keys_leb_same keys a b : same_on keys a b -> keys_leb keys a b = true.
Proof.
  induction keys as [|c rest IH]; intros H; simpl; [reflexivity|].
  rewrite (H c (or_introl eq_refl)), value_eqb_refl. apply IH.
  intros c' Hc'. apply H. right. exact Hc'.
Qed.

Lemma group_key_values keys r k :
  group_key keys r = Some k -> k = map (fun c => get c r) keys.
Proof.
  unfold group_key. destruct (existsb isna _); [discriminate|]. congruence.
Qed.

Lemma same_group_same_on keys k a b :
  in_group keys k a = true -> in_group keys k b = true -> same_on keys a b.
Proof.
  rewrite !in_group_iff. intros Ha Hb.
  apply group_key_values in Ha, Hb. rewrite Ha in Hb. clear Ha.
  induction keys as [|c rest IH]; intros c' Hc'; [contradiction|].
  simpl in Hb. injection Hb as H1 H2. destruct Hc' as [<-|Hc']; auto.
  apply IH; auto.
Qed.

(** *** The merge and the final columns *)
Lemma get_attach c cs l g :
  get c (attach cs l g) = if existsb (String.eqb c) cs then get c g else get c l.
Proof.
  unfold attach. revert l. induction cs as [|c' rest IH]; intros l; simpl; [reflexivity|].
  rewrite IH, get_set, (String.eqb_sym c c').
  destruct (String.eqb c' c) eqn:E; simpl.
  - apply String.eqb_eq in E. subst. destruct (existsb _ rest); reflexivity.
  - reflexivity.
Qed.

Lemma finish_structure P NA Gr :
  finish P NA Gr
  = map final_row
        (sort_values period_keys (map grad_default (flat_map (joined Gr) (P ++ NA)))).
Proof.
  unfold finish. cbv zeta. fold (flat_map (joined Gr) (P ++ NA)).
  unfold merge_left. fold (joined Gr).
  set (M := flat_map (joined Gr) (P ++ NA)).
  rewrite (fillna_col (Str (lit "N")) "Graduated?" M), (assign_map "Graduated?" _ M).
  fold grad_default.
  set (S := sort_values period_keys _).
  unfold loc_columns.
  rewrite !col_map, !fillna_map, !assign_map2, !col_map, !fillna_map, !assign_map2,
    !col_map, !fillna_map, !assign_map2.
  unfold fillna_all. rewrite map_map. reflexivity.
Qed.

Lemma get_table c (E : string -> value) cs :
  get c (map (fun c' => (c', E c')) cs)
  = if existsb (String.eqb c) cs then E c else NaN.
Proof.
  induction cs as [|c' rest IH]; simpl; [reflexivity|].
  rewrite (String.eqb_sym c c'). destruct (String.eqb c' c) eqn:Ec; simpl.
  - apply String.eqb_eq in Ec. subst. reflexivity.
  - exact IH.
Qed.

Lemma final_row_eq r :
  final_row r = map (fun c => (c, default_of c (get c r))) output_columns.
Proof.
  unfold final_row, output_columns, default_of, zero_columns.
  cbn -[isna].
  repeat (apply f_equal2;
          [apply f_equal; try reflexivity;
           match goal with
           | |- context [get ?c r] => destruct (get c r); reflexivity
           end|]).
  reflexivity.
Qed.

Lemma get_final' c r :
  existsb (String.eqb c) output_columns = true ->
  get c (final_row r) = default_of c (get c r).
Proof. intros H. rewrite final_row_eq, get_table, H. reflexivity. Qed.

Lemma get_final c r :
  In c output_columns -> get c (final_row r) = default_of c (get c r).
Proof.
  intros H. apply get_final'. apply existsb_exists. exists c.
  split; [exact H|apply String.eqb_refl].
Qed.

(** *** The working table of enrollments *)
Lemma py_eq_eq a b : py_eq a b = true -> a = b.
Proof. unfold py_eq. rewrite andb_true_iff, value_eqb_eq. tauto. Qed.

Lemma ffill_key keys c prev f :
  Forall (fun p : value * row =>
            notna (fst p) = true -> group_key keys (snd p) <> None)
         (combine (ffill_from keys c prev f) f).
Proof.
  revert prev. induction f as [|r t IH]; intros prev; simpl; constructor; auto.
  simpl. destruct (group_key keys r); [discriminate|]. simpl. discriminate.
Qed.

Lemma group_key_notna keys r c :
  group_key keys r <> None -> In c keys -> notna (get c r) = true.
Proof.
  unfold group_key. destruct (existsb isna _) eqn:E; [congruence|].
  intros _ Hc. unfold notna. apply negb_true_iff.
  destruct (isna (get c r)) eqn:Hn; [|reflexivity].
  assert (existsb isna (map (fun c => get c r) keys) = true); [|congruence].
  apply existsb_exists. exists (get c r). split; [|exact Hn].
  apply in_map_iff. exists c. auto.
Qed.

Lemma fill_text_notna v : notna (fill_text v) = true.
Proof. destruct v; reflexivity. Qed.

Lemma enrollments_enrolled strptime students found :
  found_records strptime students = Ok found ->
  Forall enrolled (enrollments found).
Proof.
  intros H. apply found_structure in H. subst found.
  unfold enrollments. cbv zeta.
  set (M := drop degree_columns _).
  unfold groupby_ffill.
  pose proof (ffill_key fill_keys "College Sequence" [] M) as Hf.
  unfold assign. revert Hf. generalize (ffill_from fill_keys "College Sequence" [] M).
  intros vs Hf. apply Forall_forall. intros w Hw.
  apply in_map_iff in Hw. destruct Hw as [[v m] [<- Hin]].
  rewrite Forall_forall in Hf. specialize (Hf _ Hin). simpl in *.
  apply in_combine_r in Hin. unfold M in Hin. rewrite drop_map in Hin.
  apply in_map_iff in Hin. destruct Hin as [m0 [<- Hin]].
  unfold where_eq in Hin. apply filter_In in Hin. destruct Hin as [Hin _].
  apply in_map_iff in Hin. destruct Hin as [r0 [<- Hin]].
  apply filter_In in Hin. destruct Hin as [_ Hflag]. apply py_eq_eq in Hflag.
  unfold enrolled, drop_row, found_row in *.
  rewrite !get_set, !get_drop, !get_set. simpl.
  repeat split; auto using dt_typed, fill_text_notna.
  intros Hv. specialize (Hf Hv).
  pose proof (group_key_notna fill_keys _ "Enrollment Begin" Hf) as Hb.
  rewrite get_drop, !get_set in Hb. simpl in Hb. apply Hb. auto 10.
Qed.

Lemma default_notna c v : notna v = true -> default_of c v = v.
Proof. destruct v; simpl; try discriminate; reflexivity. Qed.

Lemma final_row_keys r :
  group_key period_keys r <> None -> same_on period_keys (final_row r) r.
Proof.
  intros Hk c Hc. rewrite get_final.
  - apply default_notna. eapply group_key_notna; eauto.
  - simpl in Hc. unfold output_columns.
    repeat (destruct Hc as [<-|Hc]; [simpl; tauto|]). contradiction.
Qed.

Lemma sel_final k r : found_like r -> sel k (final_row r) = sel k r.
Proof.
  unfold sel, flag_Y. intros [[Hk Hf]|[Hf|Hf]].
  - rewrite (in_group_same period_keys k _ _ (final_row_keys r Hk)).
    rewrite get_final by (unfold output_columns; simpl; tauto).
    rewrite Hf. reflexivity.
  - rewrite get_final by (unfold output_columns; simpl; tauto).
    rewrite Hf. simpl. rewrite !andb_false_r. reflexivity.
  - rewrite get_final by (unfold output_columns; simpl; tauto).
    rewrite Hf. simpl. rewrite !andb_false_r. reflexivity.
Qed.

Lemma joined_other Gr l y c :
  In y (joined Gr l) -> existsb (String.eqb c) degree_columns = false ->
  get c y = get c l.
Proof.
  unfold joined. intros Hy Hc.
  destruct (filter (keys_match join_keys l) Gr) as [|m ms].
  - destruct Hy as [<-|[]]. rewrite get_attach, Hc. reflexivity.
  - apply in_map_iff in Hy. destruct Hy as [g [<- _]].
    rewrite get_attach, Hc. reflexivity.
Qed.

Lemma grad_default_other r c :
  String.eqb "Graduated?" c = false -> get c (grad_default r) = get c r.
Proof. intros Hc. unfold grad_default. rewrite get_set, Hc. reflexivity. Qed.

Lemma joined_same Gr l y :
  In y (joined Gr l) ->
  same_on ("Record Found Y/N" :: period_keys) (grad_default y) l.
Proof.
  intros Hy c Hc. simpl in Hc.
  repeat (destruct Hc as [<-|Hc];
          [rewrite grad_default_other by reflexivity;
           apply (joined_other Gr l y _ Hy); reflexivity|]).
  contradiction.
Qed.

Lemma sel_same k a b :
  same_on ("Record Found Y/N" :: period_keys) a b -> sel k a = sel k b.
Proof.
  intros H. unfold sel, flag_Y.
  rewrite (in_group_same period_keys k a b) by (intros c Hc; apply H; right; exact Hc).
  rewrite (H "Record Found Y/N") by (left; reflexivity). reflexivity.
Qed.

Lemma found_like_same a b :
  same_on ("Record Found Y/N" :: period_keys) a b -> found_like b -> found_like a.
Proof.
  intros H. unfold found_like.
  rewrite (group_key_same period_keys a b) by (intros c Hc; apply H; right; exact Hc).
  rewrite (H "Record Found Y/N") by (left; reflexivity). tauto.
Qed.

Lemma filter_flat_map {A B} (q : B -> bool) (q' : A -> bool) (F : A -> list B) L :
  (forall l y, In l L -> In y (F l) -> q y = q' l) ->
  filter q (flat_map F L) = flat_map F (filter q' L).
Proof.
  induction L as [|l t IH]; intros H; simpl; [reflexivity|].
  rewrite filter_app, IH by (intros; apply H; [right|]; assumption).
  assert (Hl : forall y, In y (F l) -> q y = q' l) by (intros; apply H; [left|]; auto).
  destruct (q' l); simpl.
  - f_equal. clear -Hl. induction (F l) as [|y ys IHy]; simpl; [reflexivity|].
    rewrite (Hl y (or_introl eq_refl)). f_equal. apply IHy. intros; apply Hl; right; assumption.
  - clear -Hl. induction (F l) as [|y ys IHy]; simpl; [reflexivity|].
    rewrite (Hl y (or_introl eq_refl)). apply IHy. intros; apply Hl; right; assumption.
Qed.

Lemma filter_none {A} (q : A -> bool) l :
  (forall a, In a l -> q a = false) -> filter q l = [].
Proof.
  induction l as [|a t IH]; intros H; simpl; [reflexivity|].
  rewrite (H a (or_introl eq_refl)). apply IH. intros; apply H; right; assumption.
Qed.

(** The output rows of one period. *)
Lemma finish_period_rows P NA Gr k :
  (forall p, In p P ->
     group_key period_keys p <> None /\ get "Record Found Y/N" p = Str (lit "Y")) ->
  (forall n, In n NA ->
     get "Record Found Y/N" n = NaN \/ get "Record Found Y/N" n = Str (lit "N")) ->
  filter (sel k) (finish P NA Gr)
  = map final_row
      (map grad_default
           (flat_map (joined Gr) (filter (in_group period_keys k) P))).
Proof.
  intros HP HNA. rewrite finish_structure, filter_of_map.
  set (M := map grad_default (flat_map (joined Gr) (P ++ NA))).
  assert (HM : forall r, In r M ->
            exists l y, In l (P ++ NA) /\ In y (joined Gr l) /\ r = grad_default y).
  { intros r Hr. apply in_map_iff in Hr. destruct Hr as [y [<- Hy]].
    apply in_flat_map in Hy. destruct Hy as [l [Hl Hy]]. eauto. }
  assert (HL : forall l, In l (P ++ NA) -> found_like l).
  { intros l Hl. apply in_app_or in Hl. destruct Hl as [Hl|Hl].
    - left. apply HP, Hl.
    - right. apply HNA, Hl. }
  rewrite (filter_ext_in _ (sel k)).
  2:{ intros r Hr. apply sort_values_In in Hr. apply HM in Hr.
      destruct Hr as (l & y & Hl & Hy & ->). apply sel_final.
      eapply found_like_same; [apply (joined_same Gr l y Hy)|]. apply HL, Hl. }
  rewrite sort_values_filter.
  2:{ intros a b Ha Hb. unfold sel in *. apply andb_true_iff in Ha, Hb.
      apply keys_leb_same. eapply same_group_same_on; [apply Ha|apply Hb]. }
  unfold M. rewrite filter_of_map. f_equal. f_equal.
  rewrite (filter_flat_map _ (sel k)).
  2:{ intros l y Hl Hy. apply sel_same. apply (joined_same Gr). exact Hy. }
  f_equal. rewrite filter_app.
  rewrite (filter_none (sel k) NA).
  2:{ intros n Hn. unfold sel, flag_Y. destruct (HNA n Hn) as [-> | ->];
      simpl; apply andb_false_r. }
  rewrite app_nil_r. apply filter_ext_in. intros p Hp.
  unfold sel, flag_Y. destruct (HP p Hp) as [_ ->]. simpl. apply andb_true_r.
Qed.

(** *** The aggregates *)
Lemma agg_count_all s :
  forallb notna s = true -> agg_count s = Num (Z.of_nat (List.length s)).
Proof.
  intros H. unfold agg_count. do 3 f_equal.
  induction s as [|v t IH]; simpl in *; [reflexivity|].
  apply andb_true_iff in H. destruct H as [-> H]. f_equal. auto.
Qed.

Lemma fold_min_spec l a :
  (fold_left Z.min l a <= a)%Z
  /\ Forall (fun x => (fold_left Z.min l a <= x)%Z) l
  /\ (fold_left Z.min l a = a \/ In (fold_left Z.min l a) l).
Proof.
  revert a. induction l as [|x t IH]; intros a; simpl.
  - split; [lia|]. split; [constructor|]. left. reflexivity.
  - destruct (IH (Z.min a x)) as (H1 & H2 & H3). split; [lia|]. split.
    + constructor; [lia|exact H2].
    + destruct H3 as [H3|H3]; [|right; right; exact H3].
      destruct (Z.min_spec a x) as [[_ E]|[_ E]];
        [left; congruence|right; left; congruence].
Qed.

Lemma fold_max_spec l a :
  (a <= fold_left Z.max l a)%Z
  /\ Forall (fun x => (x <= fold_left Z.max l a)%Z) l
  /\ (fold_left Z.max l a = a \/ In (fold_left Z.max l a) l).
Proof.
  revert a. induction l as [|x t IH]; intros a; simpl.
  - split; [lia|]. split; [constructor|]. left. reflexivity.
  - destruct (IH (Z.max a x)) as (H1 & H2 & H3). split; [lia|]. split.
    + constructor; [lia|exact H2].
    + destruct H3 as [H3|H3]; [|right; right; exact H3].
      destruct (Z.max_spec a x) as [[_ E]|[_ E]];
        [right; left; congruence|left; congruence].
Qed.

Lemma dates_of_all s : forallb is_timestamp s = true -> dates_of s = map day_of s.
Proof.
  induction s as [|v t IH]; simpl; [reflexivity|].
  intros H. apply andb_true_iff in H. destruct H as [Hv Ht].
  destruct v; try discriminate. simpl. f_equal. auto.
Qed.

Lemma timestamp_day v : is_timestamp v = true -> v = Date (day_of v).
Proof. destruct v; try discriminate. reflexivity. Qed.

Lemma agg_min_dates s :
  s <> [] -> forallb is_timestamp s = true ->
  exists b, agg_min s = Date b /\ In (Date b) s
            /\ Forall (fun v => (b <= day_of v)%Z) s.
Proof.
  intros Hne Hd. unfold agg_min. rewrite (dates_of_all s Hd).
  destruct s as [|v t]; [congruence|]. simpl.
  simpl in Hd. apply andb_true_iff in Hd. destruct Hd as [Hv Ht].
  destruct (fold_min_spec (map day_of t) (day_of v)) as (H1 & H2 & H3).
  eexists. split; [reflexivity|]. split.
  - destruct H3 as [->|H3].
    + left. apply timestamp_day, Hv.
    + right. apply in_map_iff in H3. destruct H3 as [w [Hw1 Hw2]].
      rewrite <- Hw1. rewrite <- timestamp_day; auto.
      rewrite forallb_forall in Ht. auto.
  - constructor; [exact H1|]. rewrite Forall_map in H2. exact H2.
Qed.

Lemma agg_max_dates s :
  s <> [] -> forallb is_timestamp s = true ->
  exists e, agg_max s = Date e /\ In (Date e) s
            /\ Forall (fun v => (day_of v <= e)%Z) s.
Proof.
  intros Hne Hd. unfold agg_max. rewrite (dates_of_all s Hd).
  destruct s as [|v t]; [congruence|]. simpl.
  simpl in Hd. apply andb_true_iff in Hd. destruct Hd as [Hv Ht].
  destruct (fold_max_spec (map day_of t) (day_of v)) as (H1 & H2 & H3).
  eexists. split; [reflexivity|]. split.
  - destruct H3 as [->|H3].
    + left. apply timestamp_day, Hv.
    + right. apply in_map_iff in H3. destruct H3 as [w [Hw1 Hw2]].
      rewrite <- Hw1. rewrite <- timestamp_day; auto.
      rewrite forallb_forall in Ht. auto.
  - constructor; [exact H1|]. rewrite Forall_map in H2. exact H2.
Qed.

Lemma agg_sum_nums zs : agg_sum (map Num zs) = Num (fold_left Z.add zs 0%Z).
Proof.
  unfold agg_sum. do 2 f_equal.
  induction zs as [|z t IH]; simpl; [reflexivity|]. f_equal. exact IH.
Qed.

Lemma agg_last_all s : forallb notna s = true -> agg_last s = last s NaN.
Proof.
  intros H. unfold agg_last.
  replace (filter notna s) with s.
  2:{ symmetry. induction s as [|v t IH]; simpl in *; [reflexivity|].
      apply andb_true_iff in H. destruct H as [-> H]. f_equal. auto. }
  clear H. induction s as [|v t IH] using rev_ind; [reflexivity|].
  rewrite rev_app_distr, last_last. reflexivity.
Qed.

Lemma no_activity_flag header s n :
  In n (no_activity header s) ->
  get "Record Found Y/N" n = NaN \/ get "Record Found Y/N" n = Str (lit "N").
Proof.
  unfold no_activity, loc_columns, where_eq. intros H.
  apply in_map_iff in H. destruct H as [r [<- Hr]].
  apply filter_In in Hr. destruct Hr as [_ Hr]. apply py_eq_eq in Hr.
  rewrite get_loc. destruct (existsb _ _); auto.
Qed.

Lemma period_row_other W r c :
  existsb (String.eqb c)
    ["RowNumber"; "SemesterIndex"; "Last Enrollment CIP 2";
     "Last Enrollment Major 2"; "Last Enrollment CIP 1"; "Last Enrollment Major 1";
     "Total Enrollment Days"; "Enrollment End"; "Enrollment Begin";
     "Semesters at Institution"] = false ->
  get c (period_row W r) = get c r.
Proof.
  intros H. unfold period_row, drop_row, summary. rewrite get_drop.
  assert (E : forall k v r', get c (set k v r') = if String.eqb c k then v else get c r')
    by (intros; rewrite get_set, String.eqb_sym; reflexivity).
  rewrite !E.
  simpl in H. rewrite !orb_false_iff in H.
  destruct H as (H1&H2&H3&H4&H5&H6&H7&H8&H9&H10&_).
  simpl. rewrite H1, H2, H3, H4, H5, H6, H7, H8, H9, H10. reflexivity.
Qed.

Lemma periods_found strptime students found p :
  found_records strptime students = Ok found ->
  In p (enrollment_periods (enrollments found)) ->
  group_key period_keys p <> None /\ get "Record Found Y/N" p = Str (lit "Y").
Proof.
  intros Hf Hp. apply periods_In in Hp. destruct Hp as (r & Hr & Hk & ->).
  split.
  - unfold period_row.
    rewrite (group_key_same period_keys _ r (period_row_keys _ r (Num 1))). exact Hk.
  - rewrite period_row_other by reflexivity.
    pose proof (enrollments_enrolled _ _ _ Hf) as He.
    rewrite Forall_forall in He. apply (He r Hr).
Qed.

Lemma find_in_group keys k W x :
  In x W -> in_group keys k x = true ->
  exists g, find (in_group keys k) W = Some g /\ In g W /\ in_group keys k g = true.
Proof.
  intros Hx Hk. destruct (find (in_group keys k) W) as [g|] eqn:E.
  - exists g. apply find_some in E. tauto.
  - exfalso. pose proof (find_none _ _ E x Hx). congruence.
Qed.

Lemma joined_length Gr l :
  List.length (joined Gr l)
  = Nat.max 1 (List.length (filter (keys_match join_keys l) Gr)).
Proof.
  unfold joined. destruct (filter _ Gr) as [|m ms]; [reflexivity|].
  rewrite length_map. simpl. reflexivity.
Qed.

Lemma keys_match_same keys a b g :
  same_on keys a b -> keys_match keys a g = keys_match keys b g.
Proof.
  intros H. unfold keys_match.
  induction keys as [|c rest IH]; simpl; [reflexivity|].
  rewrite (H c (or_introl eq_refl)), IH; [reflexivity|].
  intros c' Hc'. apply H. right. exact Hc'.
Qed.

Lemma last_map {A B} (f : A -> B) l d : last (map f l) (f d) = f (last l d).
Proof.
  induction l as [|a t IH]; [reflexivity|].
  simpl. destruct t; [reflexivity|]. exact IH.
Qed.

Lemma date_of_typed v :
  is_date_or_nan v = true -> notna v = true -> is_timestamp v = true.
Proof. destruct v; simpl; intros H1 H2; try discriminate; reflexivity. Qed.

Lemma group_rows strptime students found k r :
  found_records strptime students = Ok found ->
  In r (filter (in_group period_keys k) (enrollments found)) ->
  In r (enrollments found) /\ group_key period_keys r = Some k
  /\ is_timestamp (get "Enrollment Begin" r) = true
  /\ is_date_or_nan (get "Enrollment End" r) = true
  /\ get "Enrollment Days" r
     = days_between (get "Enrollment End" r) (get "Enrollment Begin" r)
  /\ notna (get "Enrollment Major 2" r) = true
  /\ notna (get "Enrollment CIP 2" r) = true.
Proof.
  intros Hf Hr. apply filter_In in Hr. destruct Hr as [Hr Hk].
  apply in_group_iff in Hk.
  pose proof (enrollments_enrolled _ _ _ Hf) as He.
  rewrite Forall_forall in He. destruct (He r Hr) as (H1&H2&H3&H4&H5&H6&H7).
  repeat split; auto.
  apply date_of_typed; auto. apply H7.
  apply (group_key_notna period_keys); [congruence|]. simpl. tauto.
Qed.

Lemma timestamp_notna v : is_timestamp v = true -> notna v = true.
Proof. destruct v; simpl; intros H; try discriminate; reflexivity. Qed.

Lemma days_between_days e b :
  is_timestamp e = true -> is_timestamp b = true ->
  days_between e b = Num (day_of e - day_of b).
Proof. destruct e, b; simpl; intros H1 H2; try discriminate; reflexivity. Qed.

Lemma flat_map_one {A B} (F : A -> list B) a : flat_map F [a] = F a.
Proof. simpl. apply app_nil_r. Qed.

Lemma last_In {A} (l : list A) d : l <> [] -> In (last l d) l.
Proof.
  induction l as [|a t IH]; [congruence|]. intros _.
  destruct t as [|b t']; [left; reflexivity|].
  right. apply IH. discriminate.
Qed.

Lemma period_row_columns W g :
  get "Semesters at Institution" (period_row W g)
    = group_agg period_keys agg_count "Enrollment Begin" W g
  /\ get "Enrollment Begin" (period_row W g)
    = group_agg period_keys agg_min "Enrollment Begin" W g
  /\ get "Enrollment End" (period_row W g)
    = group_agg period_keys agg_max "Enrollment End" W g
  /\ get "Total Enrollment Days" (period_row W g)
    = group_agg period_keys agg_sum "Enrollment Days" W g
  /\ get "Last Enrollment Major 1" (period_row W g)
    = group_agg period_keys agg_last "Enrollment Major 1" W g
  /\ get "Last Enrollment CIP 1" (period_row W g)
    = group_agg period_keys agg_last "Enrollment CIP 1" W g
  /\ get "Last Enrollment Major 2" (period_row W g)
    = group_agg period_keys agg_last "Enrollment Major 2" W g
  /\ get "Last Enrollment CIP 2" (period_row W g)
    = group_agg period_keys agg_last "Enrollment CIP 2" W g.
Proof.
  unfold period_row, drop_row, summary.
  repeat split; rewrite get_drop, !get_set; reflexivity.
Qed.

Lemma output_column_dec c :
  existsb (String.eqb c) output_columns = true -> In c output_columns.
Proof.
  intros H. apply existsb_exists in H. destruct H as [c' [H1 H2]].
  apply String.eqb_eq in H2. subst. exact H1.
Qed.

(** X11.  The summary of one enrollment period.  Let [G] be the rows of
    the working table of enrollments that share the period key [k] of the
    row [x], each with an Enrollment End.  The conversion returns, and the
    output rows of that period are as many as the graduation facts that
    match [x] on the join keys, and one when there is none.  Each of them
    has: the number of rows of [G] as Semesters at Institution; the
    earliest Enrollment Begin and the latest Enrollment End of [G]; the sum
    of the day spans of the rows of [G] as Total Enrollment Days; the last
    non-null Enrollment Major 1 and CIP 1 of [G], or the empty string; and
    Enrollment Major 2 and CIP 2 of the last row of [G]. *)
Theorem period_aggregates strptime header students found x k :
  found_records strptime (fill_names students) = Ok found ->
  In x (enrollments found) ->
  group_key period_keys x = Some k ->
  Forall (fun r => notna (get "Enrollment End" r) = true)
         (filter (in_group period_keys k) (enrollments found)) ->
  exists out b e,
    nsc_return_se_convert strptime header students = Ok out
    /\ let G := filter (in_group period_keys k) (enrollments found) in
       let facts := filter (keys_match join_keys x) (graduation_facts found) in
       let rows := filter (sel k) out in
       List.length rows = Nat.max 1 (List.length facts)
       /\ In (Date b) (col "Enrollment Begin" G)
       /\ Forall (fun r => exists b', get "Enrollment Begin" r = Date b' /\ (b <= b')%Z) G
       /\ In (Date e) (col "Enrollment End" G)
       /\ Forall (fun r => exists e', get "Enrollment End" r = Date e' /\ (e' <= e)%Z) G
       /\ Forall (fun o =>
            get "Semesters at Institution" o = Num (Z.of_nat (List.length G))
            /\ get "Enrollment Begin" o = Date b
            /\ get "Enrollment End" o = Date e
            /\ get "Total Enrollment Days" o = Num (Zsum (map span G))
            /\ get "Last Enrollment Major 1" o
               = fill_text (agg_last (col "Enrollment Major 1" G))
            /\ get "Last Enrollment CIP 1" o
               = fill_text (agg_last (col "Enrollment CIP 1" G))
            /\ get "Last Enrollment Major 2" o
               = get "Enrollment Major 2" (last G [])
            /\ get "Last Enrollment CIP 2" o
               = get "Enrollment CIP 2" (last G [])) rows.
Proof.
  intros Hf Hx Hk Hend.
  set (W := enrollments found) in *.
  set (G := filter (in_group period_keys k) W) in *.
  assert (HG := fun r => group_rows strptime _ found k r Hf). fold W G in HG.
  assert (HxG : In x G) by (apply filter_In; split; [exact Hx|apply in_group_iff, Hk]).
  destruct (find_in_group period_keys k W x Hx) as (g & Hfind & HgW & Hgk);
    [apply in_group_iff, Hk|].
  apply in_group_iff in Hgk.
  assert (Hb : forallb is_timestamp (col "Enrollment Begin" G) = true).
  { apply forallb_forall. intros v Hv. apply in_map_iff in Hv.
    destruct Hv as [r [<- Hr]]. apply (HG r Hr). }
  assert (He : forallb is_timestamp (col "Enrollment End" G) = true).
  { apply forallb_forall. intros v Hv. apply in_map_iff in Hv.
    destruct Hv as [r [<- Hr]]. apply date_of_typed; [apply (HG r Hr)|].
    rewrite Forall_forall in Hend. apply Hend, Hr. }
  assert (Hne : forall c, col c G <> []).
  { intros c E. apply map_eq_nil in E. rewrite E in HxG. contradiction. }
  destruct (agg_min_dates _ (Hne _) Hb) as (b & Hmin & Hbin & Hble).
  destruct (agg_max_dates _ (Hne _) He) as (e & Hmax & Hein & Hele).
  exists (finish (enrollment_periods W) (no_activity header (fill_names students))
                 (graduation_facts found)), b, e.
  split; [unfold nsc_return_se_convert; rewrite Hf; reflexivity|].
  cbv zeta.
  rewrite finish_period_rows.
  2:{ intros p Hp. eapply periods_found; eassumption. }
  2:{ intros n Hn. eapply no_activity_flag; eassumption. }
  rewrite periods_of_group, Hfind, flat_map_one.
  split.
  { rewrite !length_map, joined_length. do 2 f_equal.
    apply filter_ext. intros f. apply keys_match_same.
    intros c Hc. unfold period_row.
    rewrite (period_row_keys W g (Num 1) c) by (simpl in *; tauto).
    assert (Hxg : in_group period_keys k x = true) by (apply in_group_iff, Hk).
    assert (Hgg : in_group period_keys k g = true) by (apply in_group_iff, Hgk).
    apply (same_group_same_on period_keys k g x Hgg Hxg). simpl in *. tauto. }
  split; [exact Hbin|]. split.
  { apply Forall_forall. intros r Hr. exists (day_of (get "Enrollment Begin" r)).
    split; [apply timestamp_day, (HG r Hr)|].
    rewrite Forall_forall in Hble. apply Hble. apply in_map. exact Hr. }
  split; [exact Hein|]. split.
  { apply Forall_forall. intros r Hr. exists (day_of (get "Enrollment End" r)).
    split.
    - apply timestamp_day. rewrite forallb_forall in He. apply He, in_map, Hr.
    - rewrite Forall_forall in Hele. apply Hele. apply in_map. exact Hr. }
  apply Forall_forall. intros o Ho.
  apply in_map_iff in Ho. destruct Ho as [y0 [<- Ho]].
  apply in_map_iff in Ho. destruct Ho as [y [<- Hy]].
  assert (Hcol : forall c, In c output_columns ->
            existsb (String.eqb c) degree_columns = false ->
            get c (final_row (grad_default y)) = default_of c (get c (period_row W g))).
  { intros c Hc Hd. rewrite get_final by exact Hc. f_equal.
    rewrite grad_default_other.
    - apply (joined_other _ _ _ _ Hy Hd).
    - simpl in Hd. rewrite !orb_false_iff in Hd. rewrite String.eqb_sym. tauto. }
  assert (Hagg : forall agg src, group_agg period_keys agg src W g = agg (col src G)).
  { intros. unfold group_agg. rewrite Hgk. reflexivity. }
  destruct (period_row_columns W g) as (C1&C2&C3&C4&C5&C6&C7&C8).
  assert (Hlast : In (last G []) G).
  { apply last_In. intros E. rewrite E in HxG. contradiction. }
  repeat split.
  - rewrite Hcol by (try apply output_column_dec; reflexivity).
    rewrite C1, Hagg, agg_count_all.
    + unfold col. rewrite length_map. reflexivity.
    + apply forallb_forall. intros v Hv. rewrite forallb_forall in Hb.
      apply timestamp_notna, Hb, Hv.
  - rewrite Hcol by (try apply output_column_dec; reflexivity).
    rewrite C2, Hagg, Hmin. reflexivity.
  - rewrite Hcol by (try apply output_column_dec; reflexivity).
    rewrite C3, Hagg, Hmax. reflexivity.
  - rewrite Hcol by (try apply output_column_dec; reflexivity).
    rewrite C4, Hagg.
    replace (col "Enrollment Days" G) with (map Num (map span G)).
    + rewrite agg_sum_nums. reflexivity.
    + unfold col. rewrite map_map. apply map_ext_in. intros r Hr.
      destruct (HG r Hr) as (_&_&H3&_&H5&_). rewrite H5. unfold span.
      rewrite forallb_forall in He. symmetry.
      apply days_between_days; [apply He, in_map, Hr|exact H3].
  - rewrite Hcol by (try apply output_column_dec; reflexivity).
    rewrite C5, Hagg. reflexivity.
  - rewrite Hcol by (try apply output_column_dec; reflexivity).
    rewrite C6, Hagg. reflexivity.
  - rewrite Hcol by (try apply output_column_dec; reflexivity).
    rewrite C7, Hagg, agg_last_all.
    + unfold col. change NaN with (get "Enrollment Major 2" []) at 1.
      rewrite last_map. apply default_notna. apply (HG _ Hlast).
    + apply forallb_forall. intros v Hv. apply in_map_iff in Hv.
      destruct Hv as [r [<- Hr]]. apply (HG r Hr).
  - rewrite Hcol by (try apply output_column_dec; reflexivity).
    rewrite C8, Hagg, agg_last_all.
    + unfold col. change NaN with (get "Enrollment CIP 2" []) at 1.
      rewrite last_map. apply default_notna. apply (HG _ Hlast).
    + apply forallb_forall. intros v Hv. apply in_map_iff in Hv.
      destruct Hv as [r [<- Hr]]. apply (HG r Hr).
Qed.

Lemma fill_names_structure s : fill_names s = map fill_names_row s.
Proof.
  unfold fill_names. cbv zeta.
  rewrite (fillna_col (Str []) "Middle Initial" s), (assign_map "Middle Initial" _ s).
  rewrite col_map, fillna_map, assign_map2. reflexivity.
Qed.

Lemma graduation_facts_structure found :
  graduation_facts found
  = map fact_row (where_eq "Graduated?" (Str (lit "Y")) found).
Proof.
  unfold graduation_facts. cbv zeta. unfold loc_columns.
  rewrite !col_map, !fillna_map, !assign_map2, !col_map, !fillna_map, !assign_map2,
    !col_map, !fillna_map, !assign_map2.
  reflexivity.
Qed.

Lemma fact_row_keys r c :
  In c ("Graduated?" :: join_keys) -> get c (fact_row r) = get c r.
Proof.
  intros Hc. unfold fact_row. cbv zeta. rewrite !get_set.
  simpl in Hc.
  repeat (destruct Hc as [<-|Hc]; [simpl; reflexivity|]).
  contradiction.
Qed.

Lemma graduation_facts_flag found g :
  In g (graduation_facts found) -> get "Graduated?" g = Str (lit "Y").
Proof.
  rewrite graduation_facts_structure. intros H.
  apply in_map_iff in H. destruct H as [r [<- Hr]].
  apply filter_In in Hr. destruct Hr as [_ Hr]. apply py_eq_eq in Hr.
  rewrite fact_row_keys by (left; reflexivity). exact Hr.
Qed.

Lemma finish_In P NA Gr o :
  In o (finish P NA Gr) ->
  exists l y, In l (P ++ NA) /\ In y (joined Gr l) /\ o = final_row (grad_default y).
Proof.
  rewrite finish_structure. intros H.
  apply in_map_iff in H. destruct H as [r [<- Hr]].
  apply sort_values_In in Hr. apply in_map_iff in Hr. destruct Hr as [y [<- Hy]].
  apply in_flat_map in Hy. destruct Hy as [l [Hl Hy]]. eauto.
Qed.

Lemma in_output c : existsb (String.eqb c) output_columns = true -> In c output_columns.
Proof. apply output_column_dec. Qed.

Lemma get_grad_default y :
  get "Graduated?" (grad_default y)
  = if isna (get "Graduated?" y) then Str (lit "N") else get "Graduated?" y.
Proof. unfold grad_default. rewrite get_set. reflexivity. Qed.

Lemma get_attach_degree c l g :
  existsb (String.eqb c) degree_columns = true ->
  get c (attach degree_columns l g) = get c g.
Proof. intros H. rewrite get_attach, H. reflexivity. Qed.

Lemma detail_default c v :
  In c detail_columns -> default_of c v = fill_text v.
Proof.
  intros Hc. unfold detail_columns in Hc. simpl in Hc.
  repeat (destruct Hc as [<-|Hc]; [reflexivity|]). contradiction.
Qed.

Lemma detail_is_degree c :
  In c detail_columns ->
  existsb (String.eqb c) degree_columns = true
  /\ existsb (String.eqb c) output_columns = true
  /\ String.eqb "Graduated?" c = false.
Proof.
  intros Hc. unfold detail_columns in Hc. simpl in Hc.
  repeat (destruct Hc as [<-|Hc]; [repeat split; reflexivity|]). contradiction.
Qed.

(** X12.  Every output row comes from one row [l] of the left table of the
    merge (a period or a student without activity) and carries its join
    keys.  Either a graduation fact [g] matches [l] on the join keys, and
    the row has Graduated? = 'Y' and the degree columns of [g]; or no fact
    matches, and the row has Graduated? = 'N' and empty degree columns. *)
Theorem graduation_fields_follow_key strptime header students found :
  found_records strptime (fill_names students) = Ok found ->
  exists out,
    nsc_return_se_convert strptime header students = Ok out
    /\ Forall (fun o =>
         exists l,
           In l (enrollment_periods (enrollments found)
                 ++ no_activity header (fill_names students))
           /\ Forall (fun c => get c o = default_of c (get c l)) join_keys
           /\ ((exists g, In g (graduation_facts found)
                          /\ keys_match join_keys l g = true
                          /\ get "Graduated?" o = Str (lit "Y")
                          /\ Forall (fun c => get c o = fill_text (get c g))
                                    detail_columns)
               \/ (Forall (fun g => keys_match join_keys l g = false)
                          (graduation_facts found)
                   /\ get "Graduated?" o = Str (lit "N")
                   /\ Forall (fun c => get c o = Str []) detail_columns))) out.
Proof.
  intros Hf. eexists. split; [unfold nsc_return_se_convert; rewrite Hf; reflexivity|].
  cbv zeta. apply Forall_forall. intros o Ho.
  apply finish_In in Ho. destruct Ho as (l & y & Hl & Hy & ->).
  exists l. split; [exact Hl|]. split.
  { apply Forall_forall. intros c Hc.
    rewrite get_final by (apply in_output; simpl in Hc;
      repeat (destruct Hc as [<-|Hc]; [reflexivity|]); contradiction).
    apply (f_equal (default_of c)). rewrite grad_default_other
      by (simpl in Hc; repeat (destruct Hc as [<-|Hc]; [reflexivity|]); contradiction).
    apply (joined_other _ _ _ _ Hy).
    simpl in Hc; repeat (destruct Hc as [<-|Hc]; [reflexivity|]); contradiction. }
  unfold joined in Hy.
  destruct (filter (keys_match join_keys l) (graduation_facts found)) as [|m ms] eqn:E.
  - right. destruct Hy as [<-|[]]. split; [|split].
    + apply Forall_forall. intros g Hg.
      destruct (keys_match join_keys l g) eqn:Hm; [|reflexivity].
      assert (Hin : In g (filter (keys_match join_keys l) (graduation_facts found))).
      { apply filter_In. split; assumption. }
      rewrite E in Hin. contradiction.
    + rewrite get_final by (apply in_output; reflexivity).
      rewrite get_grad_default, get_attach_degree by reflexivity. reflexivity.
    + apply Forall_forall. intros c Hc.
      destruct (detail_is_degree c Hc) as (H1 & H2 & H3).
      rewrite get_final by (apply in_output, H2).
      rewrite grad_default_other by exact H3.
      rewrite get_attach_degree by exact H1.
      rewrite (detail_default c _ Hc). reflexivity.
  - left. apply in_map_iff in Hy. destruct Hy as [g [<- Hg]].
    assert (Hg' : In g (filter (keys_match join_keys l) (graduation_facts found)))
      by (rewrite E; exact Hg).
    clear Hg. apply filter_In in Hg'. destruct Hg' as [Hg Hm].
    exists g. split; [exact Hg|]. split; [exact Hm|]. split.
    + rewrite get_final by (apply in_output; reflexivity).
      rewrite get_grad_default, get_attach_degree by reflexivity.
      rewrite (graduation_facts_flag _ _ Hg). reflexivity.
    + apply Forall_forall. intros c Hc.
      destruct (detail_is_degree c Hc) as (H1 & H2 & H3).
      rewrite get_final by (apply in_output, H2).
      rewrite grad_default_other by exact H3.
      rewrite get_attach_degree by exact H1.
      apply (detail_default c _ Hc).
Qed.



Section Failure.
Variable strptime : pystr -> option Z.

Lemma to_datetime_eq s :
  to_datetime strptime s
  = if forallb (parses strptime) s then Ok (map (dt strptime) s) else Raise format_error.
Proof.
  induction s as [|v t IH]; simpl; [reflexivity|].
  rewrite IH. destruct v as [|x|z|d]; simpl;
    try (destruct (forallb (parses strptime) t); reflexivity).
  destruct (strptime x); simpl; [|reflexivity].
  destruct (forallb (parses strptime) t); reflexivity.
Qed.

Lemma col_assign_other c c' s f :
  List.length s = List.length f -> String.eqb c' c = false ->
  col c (assign c' s f) = col c f.
Proof.
  intros Hl Hc. unfold col, assign. revert s Hl.
  induction f as [|r t IH]; intros [|v s]; simpl; try discriminate; [reflexivity|].
  intros [= Hl]. rewrite get_set, Hc. f_equal. apply IH. exact Hl.
Qed.

Lemma found_records_eq students :
  found_records strptime students
  = let X := where_eq "Record Found Y/N" (Str (lit "Y")) students in
    if forallb (parses strptime) (col "Enrollment Begin" X)
       && forallb (parses strptime) (col "Enrollment End" X)
    then Ok (map (found_row strptime) X) else Raise format_error.
Proof.
  cbv zeta.
  destruct (found_records strptime students) as [found|e] eqn:E.
  - rewrite (found_structure strptime students found E).
    unfold found_records in E. cbv zeta in E.
    set (X := where_eq "Record Found Y/N" (Str (lit "Y")) students) in *.
    rewrite (to_datetime_eq (col "Enrollment Begin" X)) in E.
    destruct (forallb (parses strptime) (col "Enrollment Begin" X)); [|discriminate].
    simpl in E.
    rewrite col_assign_other in E
      by (try reflexivity; unfold col; rewrite !length_map; reflexivity).
    rewrite (to_datetime_eq (col "Enrollment End" X)) in E.
    destruct (forallb (parses strptime) (col "Enrollment End" X)); [|discriminate].
    reflexivity.
  - unfold found_records in E. cbv zeta in E.
    set (X := where_eq "Record Found Y/N" (Str (lit "Y")) students) in *.
    rewrite (to_datetime_eq (col "Enrollment Begin" X)) in E.
    destruct (forallb (parses strptime) (col "Enrollment Begin" X));
      [|simpl in E; injection E as <-; reflexivity].
    simpl in E.
    rewrite col_assign_other in E
      by (try reflexivity; unfold col; rewrite !length_map; reflexivity).
    rewrite (to_datetime_eq (col "Enrollment End" X)) in E.
    destruct (forallb (parses strptime) (col "Enrollment End" X));
      [discriminate|simpl in E; injection E as <-; reflexivity].
Qed.

End Failure.

Lemma fill_names_row_other r c :
  String.eqb "Middle Initial" c = false -> String.eqb "Name Suffix" c = false ->
  get c (fill_names_row r) = get c r.
Proof.
  intros H1 H2. unfold fill_names_row. cbv zeta. rewrite !get_set, H1, H2. reflexivity.
Qed.

Lemma found_input students :
  where_eq "Record Found Y/N" (Str (lit "Y")) (fill_names students)
  = map fill_names_row (filter flag_Y students).
Proof.
  rewrite fill_names_structure. unfold where_eq. rewrite filter_of_map. f_equal.
  apply filter_ext. intros r. unfold flag_Y.
  rewrite fill_names_row_other by reflexivity. reflexivity.
Qed.

Lemma forallb_of_map {A B} (p : B -> bool) (f : A -> B) l :
  forallb p (map f l) = forallb (fun a => p (f a)) l.
Proof. induction l as [|a t IH]; simpl; [reflexivity|]. rewrite IH. reflexivity. Qed.

Lemma forallb_pointwise {A} (p q : A -> bool) l :
  (forall a, p a = q a) -> forallb p l = forallb q l.
Proof. intros H. induction l as [|a t IH]; simpl; [reflexivity|]. rewrite H, IH. reflexivity. Qed.

Lemma forallb_and {A} (p q : A -> bool) l :
  forallb p l && forallb q l = forallb (fun a => p a && q a) l.
Proof.
  induction l as [|a t IH]; simpl; [reflexivity|].
  rewrite <- IH. destruct (p a), (q a), (forallb p t); reflexivity.
Qed.

Lemma convert_eq strptime header students :
  nsc_return_se_convert strptime header students
  = if forallb (dates_parse strptime) (filter flag_Y students)
    then Ok (finish
               (enrollment_periods
                  (enrollments (map (found_row strptime)
                                  (map fill_names_row (filter flag_Y students)))))
               (no_activity header (fill_names students))
               (graduation_facts (map (found_row strptime)
                                  (map fill_names_row (filter flag_Y students)))))
    else Raise format_error.
Proof.
  unfold nsc_return_se_convert. cbv zeta. rewrite found_records_eq. cbv zeta.
  rewrite found_input. unfold col. rewrite !map_map, !forallb_of_map, forallb_and.
  rewrite (forallb_pointwise _ (dates_parse strptime)).
  - destruct (forallb _ _); reflexivity.
  - intros r. unfold dates_parse. rewrite !fill_names_row_other by reflexivity.
    reflexivity.
Qed.



(** X15.  The number of output rows: every period and every student
    without activity counts once for each graduation fact that matches it
    on the join keys, and once when none does. *)
Theorem output_row_count strptime header students found :
  found_records strptime (fill_names students) = Ok found ->
  exists out,
    nsc_return_se_convert strptime header students = Ok out
    /\ List.length out
       = list_sum
           (map (fun l => Nat.max 1
                   (List.length (filter (keys_match join_keys l)
                                        (graduation_facts found))))
                (enrollment_periods (enrollments found)
                 ++ no_activity header (fill_names students))).
Proof.
  intros Hf. eexists. split; [unfold nsc_return_se_convert; rewrite Hf; reflexivity|].
  cbv zeta. rewrite finish_structure, length_map.
  rewrite (Permutation_length (sort_values_perm _ _)), length_map.
  generalize (graduation_facts found) as Gr.
  generalize (enrollment_periods (enrollments found)
              ++ no_activity header (fill_names students)) as L.
  intros L Gr. induction L as [|l t IH]; [reflexivity|].
  cbn [flat_map map list_sum].
  rewrite length_app, joined_length, IH. reflexivity.
Qed.



Lemma flag_joined Gr l y :
  In y (joined Gr l) ->
  get "Record Found Y/N" (grad_default y) = get "Record Found Y/N" l.
Proof.
  intros Hy. apply (joined_same Gr l y Hy). left. reflexivity.
Qed.

Lemma no_activity_structure header students :
  no_activity header (fill_names students)
  = map (fun r => map (fun c => (c, get c (fill_names_row r)))
                      (label_slice "Your Unique Identifier" "Search Date" header))
        (filter flag_N students).
Proof.
  unfold no_activity, loc_columns, where_eq. rewrite fill_names_structure.
  rewrite filter_of_map, map_map. f_equal. apply filter_ext. intros r.
  unfold flag_N. rewrite fill_names_row_other by reflexivity. reflexivity.
Qed.







Lemma filter_sub {A} (p q : A -> bool) l :
  (forall a, p a = true -> q a = true) -> filter p (filter q l) = filter p l.
Proof.
  intros H. induction l as [|a t IH]; simpl; [reflexivity|].
  destruct (q a) eqn:Eq; simpl.
  - rewrite IH. reflexivity.
  - destruct (p a) eqn:Ep; [|exact IH]. rewrite (H a Ep) in Eq. discriminate.
Qed.

Lemma found_row_grad strptime r :
  get "Graduated?" (found_row strptime (fill_names_row r)) = get "Graduated?" r.
Proof.
  unfold found_row. rewrite !get_set. simpl.
  apply fill_names_row_other; reflexivity.
Qed.

Lemma where_grad strptime v students :
  where_eq "Graduated?" v
    (map (found_row strptime) (map fill_names_row (filter flag_Y students)))
  = map (found_row strptime)
      (map fill_names_row
         (filter (fun r => py_eq (get "Graduated?" r) v && flag_Y r) students)).
Proof.
  unfold where_eq. rewrite !filter_of_map, filter_filter. do 2 f_equal.
  apply filter_ext. intros r. rewrite found_row_grad. reflexivity.
Qed.

Lemma where_grad_flagged strptime v students :
  v = Str (lit "Y") \/ v = Str (lit "N") ->
  where_eq "Graduated?" v
    (map (found_row strptime) (map fill_names_row (filter flag_Y (filter flagged students))))
  = where_eq "Graduated?" v
      (map (found_row strptime) (map fill_names_row (filter flag_Y students))).
Proof.
  intros Hv. rewrite !where_grad. do 2 f_equal. apply filter_sub.
  intros r Hr. apply andb_true_iff in Hr. destruct Hr as [Hg Hf].
  unfold flagged, unflagged, grad_Y, grad_N. rewrite Hf.
  destruct Hv as [-> | ->]; rewrite Hg; simpl; rewrite ?andb_false_r; reflexivity.
Qed.

(** X17.  A found row whose Graduated? cell is neither 'Y' nor 'N' has no
    part in a returned result: the conversion of the file without these
    rows returns the same table. *)
Theorem unflagged_rows_ignored strptime header students out :
  nsc_return_se_convert strptime header students = Ok out ->
  nsc_return_se_convert strptime header (filter flagged students) = Ok out.
Proof.
  rewrite !convert_eq.
  destruct (forallb (dates_parse strptime) (filter flag_Y students)) eqn:E;
    [|discriminate].
  intros [= <-].
  replace (forallb (dates_parse strptime) (filter flag_Y (filter flagged students)))
    with true.
  2:{ symmetry. apply forallb_forall. intros r Hr. rewrite forallb_forall in E.
      apply E. apply filter_In in Hr. destruct Hr as [Hr Hf].
      apply filter_In in Hr. destruct Hr as [Hr _]. apply filter_In. auto. }
  f_equal. f_equal; [f_equal| |].
  - unfold enrollments. cbv zeta. rewrite where_grad_flagged by auto. reflexivity.
  - rewrite !no_activity_structure. f_equal. apply filter_sub.
    intros r Hr. unfold flagged, unflagged, flag_Y. unfold flag_N in Hr.
    apply py_eq_eq in Hr. rewrite Hr. reflexivity.
  - rewrite !graduation_facts_structure, where_grad_flagged by auto. reflexivity.
Qed.

Lemma enrollments_source strptime students found x :
  found_records strptime (fill_names students) = Ok found ->
  In x (enrollments found) ->
  exists r, In r students /\ flag_Y r = true /\ grad_N r = true
            /\ same_on person_columns x (fill_names_row r).
Proof.
  intros H Hx. apply found_structure in H. rewrite found_input in H. subst found.
  unfold enrollments in Hx. cbv zeta in Hx.
  rewrite where_grad, drop_map in Hx. unfold assign in Hx.
  apply in_map_iff in Hx. destruct Hx as [[v m] [<- Hin]].
  apply in_combine_r in Hin.
  apply in_map_iff in Hin. destruct Hin as [m0 [<- Hin]].
  apply in_map_iff in Hin. destruct Hin as [r1 [<- Hin]].
  apply in_map_iff in Hin. destruct Hin as [r [<- Hin]].
  apply filter_In in Hin. destruct Hin as [Hr Hf].
  apply andb_true_iff in Hf. destruct Hf as [Hg Hy].
  exists r. split; [exact Hr|]. split; [exact Hy|]. split; [exact Hg|].
  intros c Hc. simpl in Hc.
  repeat (destruct Hc as [<-|Hc];
          [simpl; unfold drop_row; rewrite ?get_set, get_drop; simpl;
           unfold found_row; rewrite !get_set; reflexivity|]).
  contradiction.
Qed.

(** X18.  Every output row with Record Found Y/N = 'Y' stems from an
    enrollment row of the file: a row with that flag and Graduated? = 'N'
    that has the same Last Name, First Name, Middle Initial, Name Suffix
    and Requester Return Field, none of them null (Middle Initial and Name
    Suffix after their nulls were filled).  A found student whose rows are
    all graduation rows has no row in the result, and an enrollment row
    without a Last Name, a First Name or a Requester Return Field never
    reaches it. *)
Theorem found_output_rows_have_enrollment strptime header students out :
  nsc_return_se_convert strptime header students = Ok out ->
  Forall (fun o =>
            flag_Y o = true ->
            exists r,
              In r students /\ flag_Y r = true /\ grad_N r = true
              /\ Forall (fun c => get c o = get c (fill_names_row r)
                                  /\ notna (get c (fill_names_row r)) = true)
                        person_columns) out.
Proof.
  unfold nsc_return_se_convert.
  destruct (found_records strptime (fill_names students)) as [found|e] eqn:Hf;
    [|discriminate].
  simpl. intros [= <-]. apply Forall_forall. intros o Ho Hflag.
  apply finish_In in Ho. destruct Ho as (l & y & Hl & Hy & ->).
  unfold flag_Y in Hflag. rewrite get_final' in Hflag by reflexivity.
  rewrite (flag_joined _ l y Hy) in Hflag.
  apply in_app_or in Hl. destruct Hl as [Hl|Hl].
  2:{ apply no_activity_flag in Hl. destruct Hl as [E|E]; rewrite E in Hflag;
      discriminate. }
  pose proof (periods_found _ _ _ _ Hf Hl) as [Hk _].
  apply periods_In in Hl. destruct Hl as (x & Hx & _ & ->).
  destruct (enrollments_source strptime students found x Hf Hx)
    as (r & Hr & Hy' & Hg & Hs).
  exists r. split; [exact Hr|]. split; [exact Hy'|]. split; [exact Hg|].
  apply Forall_forall. intros c Hc. rewrite <- (Hs c Hc).
  assert (Hp : In c period_keys) by (simpl in Hc |- *; tauto).
  assert (Hn : notna (get c (period_row (enrollments found) x)) = true)
    by (apply (group_key_notna period_keys); assumption).
  assert (Hkey : get c (period_row (enrollments found) x) = get c x)
    by (apply period_row_keys; exact Hp).
  split; [|rewrite <- Hkey; exact Hn].
  rewrite get_final by (simpl in Hc; unfold output_columns;
    repeat (destruct Hc as [<-|Hc]; [simpl; tauto|]); contradiction).
  rewrite grad_default_other
    by (simpl in Hc; repeat (destruct Hc as [<-|Hc]; [reflexivity|]); contradiction).
  rewrite (joined_other _ _ _ c Hy)
    by (simpl in Hc; repeat (destruct Hc as [<-|Hc]; [reflexivity|]); contradiction).
  rewrite default_notna by exact Hn.
  exact Hkey.
Qed.

Lemma fact_row_eq r :
  fact_row r
  = map (fun c => (c, fact_cell c (get c r))) (join_keys ++ degree_columns).
Proof.
  unfold fact_row, join_keys, degree_columns, fact_cell, unknown_columns.
  cbn -[isna lit].
  repeat (apply f_equal2; [reflexivity|]).
  reflexivity.
Qed.

Lemma found_row_other strptime r c :
  existsb (String.eqb c)
    ["Enrollment CIP 2"; "Enrollment Major 2"; "Enrollment Days";
     "Enrollment End"; "Enrollment Begin"] = false ->
  get c (found_row strptime r) = get c r.
Proof.
  intros H. simpl in H. rewrite !orb_false_iff in H.
  destruct H as (H1 & H2 & H3 & H4 & H5 & _).
  unfold found_row.
  rewrite !get_set, (String.eqb_sym _ c), H1, (String.eqb_sym _ c), H2,
    (String.eqb_sym _ c), H3, (String.eqb_sym _ c), H4, (String.eqb_sym _ c), H5.
  reflexivity.
Qed.

Lemma degree_cell_eq c v :
  fill_text (fact_cell c v) = degree_cell c v.
Proof.
  unfold fill_text, fact_cell, degree_cell.
  destruct (existsb (String.eqb c) unknown_columns), v; reflexivity.
Qed.

Lemma fact_source strptime students found g :
  found_records strptime (fill_names students) = Ok found ->
  In g (graduation_facts found) ->
  exists r, In r students /\ flag_Y r = true /\ grad_Y r = true
            /\ Forall (fun c => fill_text (get c g) = degree_cell c (get c r))
                      detail_columns
            /\ Forall (fun c => get c g = get c (fill_names_row r)) join_keys.
Proof.
  intros Hf Hg. apply found_structure in Hf. rewrite found_input in Hf. subst found.
  rewrite graduation_facts_structure, where_grad, !map_map in Hg.
  apply in_map_iff in Hg. destruct Hg as [r [<- Hr]].
  apply filter_In in Hr. destruct Hr as [Hr Hy].
  apply andb_true_iff in Hy. destruct Hy as [Hg Hy].
  exists r. split; [exact Hr|]. split; [exact Hy|]. split; [exact Hg|]. split.
  - apply Forall_forall. intros c Hc.
    rewrite fact_row_eq, get_table.
    replace (existsb (String.eqb c) (join_keys ++ degree_columns)) with true
      by (unfold detail_columns in Hc; simpl in Hc;
          repeat (destruct Hc as [<-|Hc]; [reflexivity|]); contradiction).
    rewrite degree_cell_eq. f_equal.
    rewrite found_row_other
      by (unfold detail_columns in Hc; simpl in Hc;
          repeat (destruct Hc as [<-|Hc]; [reflexivity|]); contradiction).
    apply fill_names_row_other;
      unfold detail_columns in Hc; simpl in Hc;
      repeat (destruct Hc as [<-|Hc]; [reflexivity|]); contradiction.
  - apply Forall_forall. intros c Hc.
    rewrite fact_row_keys by (right; exact Hc).
    apply found_row_other. simpl in Hc.
    repeat (destruct Hc as [<-|Hc]; [reflexivity|]). contradiction.
Qed.

(** X19.  Every output row with Graduated? = 'Y' stems from a graduation
    row of the file: a row with Record Found Y/N = 'Y' and Graduated? = 'Y'
    whose name columns and College Sequence are the join keys of the output
    row, and whose degree cells are its degree columns, with "UNKNOWN" for
    a null Degree Title, Degree Major 1 or Degree CIP 1 and the empty
    string for any other null. *)
Theorem degrees_come_from_graduation_rows strptime header students out :
  nsc_return_se_convert strptime header students = Ok out ->
  Forall (fun o =>
            grad_Y o = true ->
            exists r,
              In r students /\ flag_Y r = true /\ grad_Y r = true
              /\ Forall (fun c => get c o = degree_cell c (get c r))
                        detail_columns
              /\ Forall (fun c => get c o
                                  = default_of c (get c (fill_names_row r)))
                        join_keys) out.
Proof.
  unfold nsc_return_se_convert.
  destruct (found_records strptime (fill_names students)) as [found|e] eqn:Hf;
    [|discriminate].
  simpl. intros [= <-]. apply Forall_forall. intros o Ho Hflag.
  apply finish_In in Ho. destruct Ho as (l & y & Hl & Hy & ->).
  unfold grad_Y in Hflag. rewrite get_final' in Hflag by reflexivity.
  rewrite get_grad_default in Hflag.
  assert (Hkeys : forall c, In c join_keys ->
            get c (final_row (grad_default y)) = default_of c (get c l)).
  { intros c Hc.
    rewrite get_final by (apply in_output; simpl in Hc;
      repeat (destruct Hc as [<-|Hc]; [reflexivity|]); contradiction).
    apply (f_equal (default_of c)). rewrite grad_default_other
      by (simpl in Hc; repeat (destruct Hc as [<-|Hc]; [reflexivity|]); contradiction).
    apply (joined_other _ _ _ _ Hy).
    simpl in Hc; repeat (destruct Hc as [<-|Hc]; [reflexivity|]); contradiction. }
  unfold joined in Hy.
  destruct (filter (keys_match join_keys l) (graduation_facts found)) as [|m ms] eqn:E.
  { destruct Hy as [<-|[]]. rewrite get_attach_degree in Hflag by reflexivity.
    discriminate. }
  apply in_map_iff in Hy. destruct Hy as [g [<- Hg]].
  assert (Hg' : In g (filter (keys_match join_keys l) (graduation_facts found)))
    by (rewrite E; exact Hg).
  clear Hg. apply filter_In in Hg'. destruct Hg' as [Hg Hm].
  destruct (fact_source strptime students found g Hf Hg)
    as (r & Hr & Hy & Hgy & Hd & Hk).
  exists r. split; [exact Hr|]. split; [exact Hy|]. split; [exact Hgy|]. split.
  - apply Forall_forall. intros c Hc.
    destruct (detail_is_degree c Hc) as (H1 & H2 & H3).
    rewrite get_final by (apply in_output, H2).
    rewrite grad_default_other by exact H3.
    rewrite get_attach_degree by exact H1.
    rewrite (detail_default c _ Hc).
    rewrite Forall_forall in Hd. apply Hd, Hc.
  - apply Forall_forall. intros c Hc. rewrite (Hkeys c Hc).
    apply (f_equal (default_of c)).
    rewrite Forall_forall in Hk. rewrite <- (Hk c Hc).
    unfold keys_match in Hm. rewrite forallb_forall in Hm.
    apply value_eqb_eq. apply Hm, Hc.
Qed.

(** *** The order of the rows *)








(** *** The theorems on the example file *)




Lemma output_row_count_witness :
  found_records strptime_strict (fill_names ex_students) = Ok ex_found
  /\ exists out,
       nsc_return_se_convert strptime_strict ex_header ex_students = Ok out
       /\ List.length out
          = list_sum
              (map (fun l => Nat.max 1
                      (List.length (filter (keys_match join_keys l)
                                           (graduation_facts ex_found))))
                   (enrollment_periods (enrollments ex_found)
                    ++ no_activity ex_header (fill_names ex_students))).
Proof.
  assert (H : found_records strptime_strict (fill_names ex_students)
              = Ok ex_found) by (vm_compute; reflexivity).
  split; [exact H|].
  exact (output_row_count strptime_strict ex_header ex_students ex_found H).
Defined.

Lemma period_aggregates_witness :
  found_records strptime_strict (fill_names ex_students) = Ok ex_found
  /\ In ex_enrollment (enrollments ex_found)
  /\ group_key period_keys ex_enrollment = Some ex_key
  /\ Forall (fun r => notna (get "Enrollment End" r) = true)
            (filter (in_group period_keys ex_key) (enrollments ex_found))
  /\ exists out b e,
       nsc_return_se_convert strptime_strict ex_header ex_students = Ok out
       /\ List.length (filter (sel ex_key) out)
          = Nat.max 1 (List.length (filter (keys_match join_keys ex_enrollment)
                                           (graduation_facts ex_found)))
       /\ In (Date b)
             (col "Enrollment Begin"
                  (filter (in_group period_keys ex_key) (enrollments ex_found)))
       /\ Forall (fun r => exists b', get "Enrollment Begin" r = Date b'
                                      /\ (b <= b')%Z)
                 (filter (in_group period_keys ex_key) (enrollments ex_found))
       /\ In (Date e)
             (col "Enrollment End"
                  (filter (in_group period_keys ex_key) (enrollments ex_found)))
       /\ Forall (fun r => exists e', get "Enrollment End" r = Date e'
                                      /\ (e' <= e)%Z)
                 (filter (in_group period_keys ex_key) (enrollments ex_found))
       /\ Forall (fun o =>
            get "Semesters at Institution" o
              = Num (Z.of_nat (List.length
                       (filter (in_group period_keys ex_key)
                               (enrollments ex_found))))
            /\ get "Enrollment Begin" o = Date b
            /\ get "Enrollment End" o = Date e
            /\ get "Total Enrollment Days" o
               = Num (Zsum (map span (filter (in_group period_keys ex_key)
                                             (enrollments ex_found))))
            /\ get "Last Enrollment Major 1" o
               = fill_text (agg_last (col "Enrollment Major 1"
                    (filter (in_group period_keys ex_key)
                            (enrollments ex_found))))
            /\ get "Last Enrollment CIP 1" o
               = fill_text (agg_last (col "Enrollment CIP 1"
                    (filter (in_group period_keys ex_key)
                            (enrollments ex_found))))
            /\ get "Last Enrollment Major 2" o
               = get "Enrollment Major 2"
                     (last (filter (in_group period_keys ex_key)
                                   (enrollments ex_found)) [])
            /\ get "Last Enrollment CIP 2" o
               = get "Enrollment CIP 2"
                     (last (filter (in_group period_keys ex_key)
                                   (enrollments ex_found)) []))
            (filter (sel ex_key) out).
Proof.
  assert (H1 : found_records strptime_strict (fill_names ex_students)
               = Ok ex_found) by (vm_compute; reflexivity).
  assert (H2 : In ex_enrollment (enrollments ex_found))
    by (vm_compute; left; reflexivity).
  assert (H3 : group_key period_keys ex_enrollment = Some ex_key)
    by (vm_compute; reflexivity).
  assert (H4 : Forall (fun r => notna (get "Enrollment End" r) = true)
                 (filter (in_group period_keys ex_key) (enrollments ex_found))).
  { apply Forall_forall. intros r Hr. vm_compute in Hr.
    destruct Hr as [<-|[<-|[]]]; vm_compute; reflexivity. }
  split; [exact H1|]. split; [exact H2|]. split; [exact H3|]. split; [exact H4|].
  exact (period_aggregates strptime_strict ex_header ex_students ex_found
           ex_enrollment ex_key H1 H2 H3 H4).
Defined.

Lemma graduation_fields_follow_key_witness :
  found_records strptime_strict (fill_names ex_students) = Ok ex_found
  /\ exists out,
       nsc_return_se_convert strptime_strict ex_header ex_students = Ok out
       /\ Forall (fun o =>
            exists l,
              In l (enrollment_periods (enrollments ex_found)
                    ++ no_activity ex_header (fill_names ex_students))
              /\ Forall (fun c => get c o = default_of c (get c l)) join_keys
              /\ ((exists g, In g (graduation_facts ex_found)
                             /\ keys_match join_keys l g = true
                             /\ get "Graduated?" o = Str (lit "Y")
                             /\ Forall (fun c => get c o = fill_text (get c g))
                                       detail_columns)
                  \/ (Forall (fun g => keys_match join_keys l g = false)
                             (graduation_facts ex_found)
                      /\ get "Graduated?" o = Str (lit "N")
                      /\ Forall (fun c => get c o = Str []) detail_columns)))
            out.
Proof.
  assert (H : found_records strptime_strict (fill_names ex_students)
              = Ok ex_found) by (vm_compute; reflexivity).
  split; [exact H|].
  exact (graduation_fields_follow_key strptime_strict ex_header ex_students
           ex_found H).
Defined.


Lemma unflagged_rows_ignored_witness :
  nsc_return_se_convert strptime_strict ex_header ex_students = Ok ex_out
  /\ nsc_return_se_convert strptime_strict ex_header
       (filter flagged ex_students) = Ok ex_out.
Proof.
  assert (H : nsc_return_se_convert strptime_strict ex_header ex_students
              = Ok ex_out) by (vm_compute; reflexivity).
  split; [exact H|].
  exact (unflagged_rows_ignored strptime_strict ex_header ex_students ex_out H).
Defined.

Lemma found_output_rows_have_enrollment_witness :
  nsc_return_se_convert strptime_strict ex_header ex_students = Ok ex_out
  /\ Forall (fun o =>
               flag_Y o = true ->
               exists r,
                 In r ex_students /\ flag_Y r = true /\ grad_N r = true
                 /\ Forall (fun c => get c o = get c (fill_names_row r)
                                     /\ notna (get c (fill_names_row r)) = true)
                           person_columns) ex_out.
Proof.
  assert (H : nsc_return_se_convert strptime_strict ex_header ex_students
              = Ok ex_out) by (vm_compute; reflexivity).
  split; [exact H|].
  exact (found_output_rows_have_enrollment strptime_strict ex_header
           ex_students ex_out H).
Defined.

Lemma degrees_come_from_graduation_rows_witness :
  nsc_return_se_convert strptime_strict ex_header ex_students = Ok ex_out
  /\ Forall (fun o =>
               grad_Y o = true ->
               exists r,
                 In r ex_students /\ flag_Y r = true /\ grad_Y r = true
                 /\ Forall (fun c => get c o = degree_cell c (get c r))
                           detail_columns
                 /\ Forall (fun c => get c o
                                     = default_of c (get c (fill_names_row r)))
                           join_keys) ex_out.
Proof.
  assert (H : nsc_return_se_convert strptime_strict ex_header ex_students
              = Ok ex_out) by (vm_compute; reflexivity).
  split; [exact H|].
  exact (degrees_come_from_graduation_rows strptime_strict ex_header
           ex_students ex_out H).
Defined.


End ReturnFacts.
